(** * YoKA KNUST information system: credential store, authenticator,
      record store and required-field validation of [main.py].

    Representation of Python data.  A Python [str] is represented by its
    UTF-8 encoding, a Rocq [string] of bytes; [str.encode()] is then the
    passage from the string to its list of bytes.  Python strings that have
    no UTF-8 encoding (those holding surrogate code points, on which
    [encode] raises) have no representative here.  The pandas reader
    also works on the bytes of the file, which it decodes as UTF-8. *)

From Stdlib Require Import ZArith Ascii String List Lia.
From stdpp Require Import gmap strings list fin_maps.
Import ListNotations.
Local Open Scope Z_scope.
Local Open Scope string_scope.
Local Set Warnings "-register-all".

(** ** hashlib.sha256 (FIPS 180-4), on bytes given as integers in [0, 256) *)

Section Sha256.

Definition w32 (x : Z) : Z := Z.land x 0xFFFFFFFF.
Definition add32 (x y : Z) : Z := w32 (x + y).
Definition rotr (n x : Z) : Z :=
  Z.lor (Z.shiftr x n) (w32 (Z.shiftl x (32 - n))).
Definition not32 (x : Z) : Z := Z.lxor x 0xFFFFFFFF.

Definition Ch (x y z : Z) : Z := Z.lxor (Z.land x y) (Z.land (not32 x) z).
Definition Maj (x y z : Z) : Z :=
  Z.lxor (Z.lxor (Z.land x y) (Z.land x z)) (Z.land y z).
Definition bsig0 (x : Z) : Z := Z.lxor (Z.lxor (rotr 2 x) (rotr 13 x)) (rotr 22 x).
Definition bsig1 (x : Z) : Z := Z.lxor (Z.lxor (rotr 6 x) (rotr 11 x)) (rotr 25 x).
Definition ssig0 (x : Z) : Z := Z.lxor (Z.lxor (rotr 7 x) (rotr 18 x)) (Z.shiftr x 3).
Definition ssig1 (x : Z) : Z := Z.lxor (Z.lxor (rotr 17 x) (rotr 19 x)) (Z.shiftr x 10).

(** The constants of FIPS 180-4 are defined there from the first primes:
    the round constants are the first 32 bits of the fractional parts of the
    cube roots of the first 64 primes, the initial hash value those of the
    square roots of the first 8. *)
Definition is_prime (p : Z) : bool :=
  Z.ltb 1 p && forallb (fun d => negb (Z.eqb (p mod Z.of_nat d) 0))
                       (seq 2 (Z.to_nat p - 2)).

Definition primes (count : nat) : list Z :=
  take count (filter (fun p => is_prime p = true) (map Z.of_nat (seq 2 400))).

(** Integer cube root, bit by bit from bit [bits - 1] down. *)
Fixpoint cube_root (bits : nat) (n root : Z) : Z :=
  match bits with
  | O => root
  | S b =>
      let next := root + 2 ^ Z.of_nat b in
      cube_root b n (if Z.leb (next * next * next) n then next else root)
  end.

Definition frac_cube_root (p : Z) : Z := w32 (cube_root 36 (p * 2 ^ 96) 0).
Definition frac_square_root (p : Z) : Z := w32 (Z.sqrt (p * 2 ^ 64)).

Definition K256 : list Z := Eval vm_compute in map frac_cube_root (primes 64).

(** The eight working variables, and also the running hash value. *)
Record regs := Regs { ra : Z; rb : Z; rc : Z; rd : Z; re : Z; rf : Z; rg : Z; rh : Z }.

Definition H256_init : regs :=
  Eval vm_compute in
    match map frac_square_root (primes 8) with
    | [a; b; c; d; e; f; g; h] => Regs a b c d e f g h
    | _ => Regs 0 0 0 0 0 0 0 0
    end.

(** Padding: a 1 bit, zero bits up to 56 mod 64 bytes, then the bit length
    as a 64-bit big-endian integer. *)
Definition be_bytes (n : nat) (x : Z) : list Z :=
  map (fun i => Z.land (Z.shiftr x (8 * Z.of_nat i)) 0xFF) (rev (seq 0 n)).

Definition pad (msg : list Z) : list Z :=
  let len := Z.of_nat (length msg) in
  let zeros := Z.to_nat ((55 - len) mod 64) in
  msg ++ 0x80 :: repeat 0 zeros ++ be_bytes 8 (8 * len).

Fixpoint be_words (bs : list Z) : list Z :=
  match bs with
  | b0 :: b1 :: b2 :: b3 :: rest =>
      (((b0 * 256 + b1) * 256 + b2) * 256 + b3) :: be_words rest
  | _ => []
  end.

(** Message schedule; [recent] holds the words computed so far, the latest
    first, so W(t-2), W(t-7), W(t-15), W(t-16) sit at offsets 1, 6, 14, 15. *)
Fixpoint schedule (n : nat) (recent : list Z) : list Z :=
  match n with
  | O => rev recent
  | S n' =>
      let wt := add32 (add32 (ssig1 (nth 1 recent 0)) (nth 6 recent 0))
                      (add32 (ssig0 (nth 14 recent 0)) (nth 15 recent 0)) in
      schedule n' (wt :: recent)
  end.

Definition round (s : regs) (kw : Z * Z) : regs :=
  let t1 := add32 (add32 (add32 (rh s) (bsig1 (re s)))
                         (add32 (Ch (re s) (rf s) (rg s)) kw.1)) kw.2 in
  let t2 := add32 (bsig0 (ra s)) (Maj (ra s) (rb s) (rc s)) in
  Regs (add32 t1 t2) (ra s) (rb s) (rc s) (add32 (rd s) t1) (re s) (rf s) (rg s).

Definition compress (H : regs) (block : list Z) : regs :=
  let W := schedule 48 (rev block) in
  let s := fold_left round (combine K256 W) H in
  Regs (add32 (ra H) (ra s)) (add32 (rb H) (rb s))
       (add32 (rc H) (rc s)) (add32 (rd H) (rd s))
       (add32 (re H) (re s)) (add32 (rf H) (rf s))
       (add32 (rg H) (rg s)) (add32 (rh H) (rh s)).

(** [words] is consumed sixteen at a time; [fuel] bounds the number of blocks. *)
Fixpoint blocks (fuel : nat) (H : regs) (words : list Z) : regs :=
  match fuel, words with
  | S fuel', _ :: _ => blocks fuel' (compress H (take 16 words)) (drop 16 words)
  | _, _ => H
  end.

Definition sha256 (msg : list Z) : regs :=
  let words := be_words (pad msg) in
  blocks (length words) H256_init words.

(** [hexdigest]: the eight words, most significant nibble first, in
    lowercase hexadecimal. *)
Definition hex_digit (n : Z) : ascii :=
  nth (Z.to_nat (Z.land n 0xF)) (list_ascii_of_string "0123456789abcdef") "0"%char.

Definition hex_word (x : Z) : list ascii :=
  map (fun i => hex_digit (Z.shiftr x (4 * Z.of_nat i))) (rev (seq 0 8)).

Definition hexdigest (H : regs) : string :=
  string_of_list_ascii
    (concat (map hex_word [ra H; rb H; rc H; rd H; re H; rf H; rg H; rh H])).

End Sha256.

(** [str.encode()]: the UTF-8 bytes of the text. *)
Definition encode (s : string) : list Z :=
  map (fun c => Z.of_N (N_of_ascii c)) (list_ascii_of_string s).

(** ** AuthenticationSystem *)

(** [hash_password]: [hashlib.sha256(password.encode()).hexdigest()] *)
Definition hash_password (password : string) : string :=
  hexdigest (sha256 (encode password)).
Arguments hash_password : simpl never.

(** ** Python values and exceptions *)

(** The values [json.load] produces and [json.dump] accepts. *)
Inductive pyobj :=
| PNone
| PBool (b : bool)
| PInt (z : Z)
| PFloat (literal : string)
| PStr (s : string)
| PList (l : list pyobj)
| PDict (d : gmap string pyobj).

(** The subclasses of [Exception] that the modelled operations can raise. *)
Inductive pyexn :=
| FileNotFoundError
| PermissionError
| OSError
| JSONDecodeError
| TypeError
| KeyError (key : string)
| EmptyDataError
| ParserError
| UnicodeDecodeError.

Inductive outcome (A : Type) :=
| Returns (a : A)
| Raises (e : pyexn).
Arguments Returns {A} a.
Arguments Raises {A} e.

(** [x in o] for a [str] x. *)
Definition contains (x : string) (o : pyobj) : outcome bool :=
  match o with
  | PDict d => Returns (bool_decide (is_Some (d !! x)))
  | PList l =>
      Returns (existsb (fun e => match e with PStr s => String.eqb s x | _ => false end) l)
  | PStr s => Returns (match index 0 x s with Some _ => true | None => false end)
  | _ => Raises TypeError
  end.

(** [o[k]] for a [str] k. *)
Definition getitem (o : pyobj) (k : string) : outcome pyobj :=
  match o with
  | PDict d => match d !! k with Some v => Returns v | None => Raises (KeyError k) end
  | _ => Raises TypeError
  end.

(** [o[k] = v] for a [str] k. *)
Definition setitem (o : pyobj) (k : string) (v : pyobj) : outcome pyobj :=
  match o with
  | PDict d => Returns (PDict (<[k:=v]> d))
  | _ => Raises TypeError
  end.

(** [s == o] for a [str] s. *)
Definition str_eq (s : string) (o : pyobj) : bool :=
  match o with
  | PStr s' => String.eqb s s'
  | _ => false
  end.

(** ** Files and the world the program runs in *)

(** What [open(users_file, 'r')] followed by [json.load] makes of the
    credential file: it cannot be opened, it is not JSON, or it is the
    document [j]. *)
Inductive file :=
| Unreadable
| Garbage
| Doc (j : pyobj).

(** What happens when a file is opened for writing and written:
    the write goes through, [open] is refused (the file is untouched), or
    the file is opened and truncated and the write itself fails. *)
Inductive disk_state :=
| Healthy
| OpenFails
| WriteFails.

(** [users.json], [yoka_data.csv] (its bytes) and the state of the disk;
    [None] is a file that does not exist. *)
Record world := World {
  users_file : option file;
  data_file : option string;
  disk : disk_state
}.

Definition set_users_file (f : option file) (w : world) : world :=
  World f (data_file w) (disk w).
Definition set_data_file (f : option string) (w : world) : world :=
  World (users_file w) f (disk w).

(** Computations that read and write the world and may raise. *)
Definition io (A : Type) : Type := world -> outcome A * world.

Definition ret {A} (a : A) : io A := fun w => (Returns a, w).
Definition raise {A} (e : pyexn) : io A := fun w => (Raises e, w).
Definition bind {A B} (m : io A) (k : A -> io B) : io B :=
  fun w => match m w with
           | (Returns a, w') => k a w'
           | (Raises e, w') => (Raises e, w')
           end.
Definition lift {A} (o : outcome A) : io A := fun w => (o, w).

(** [try: body except Exception as e: handler(e)] *)
Definition try_except {A} (body : io A) (handler : pyexn -> io A) : io A :=
  fun w => match body w with
           | (Returns a, w') => (Returns a, w')
           | (Raises e, w') => handler e w'
           end.

Notation "'let*' x ':=' m 'in' k" := (bind m (fun x => k))
  (at level 10, x name, m at level 100, k at level 200, only parsing).

(** [os.path.exists] *)
Definition exists_file {A} (f : option A) : bool :=
  match f with Some _ => true | None => false end.

(** [with open(self.users_file, 'r') as f: users = json.load(f)] *)
Definition json_load_users : io pyobj :=
  fun w => match users_file w with
           | None => (Raises FileNotFoundError, w)
           | Some Unreadable => (Raises PermissionError, w)
           | Some Garbage => (Raises JSONDecodeError, w)
           | Some (Doc j) => (Returns j, w)
           end.

(** [with open(self.users_file, 'w') as f: json.dump(users, f, indent=4)] *)
Definition json_dump_users (users : pyobj) : io unit :=
  fun w => match disk w with
           | Healthy => (Returns tt, set_users_file (Some (Doc users)) w)
           | OpenFails => (Raises PermissionError, w)
           | WriteFails => (Raises OSError, set_users_file (Some Garbage) w)
           end.

(** ** AuthenticationSystem, continued *)

(** The second component of the pairs the operations return: a Python
    value, or the text [f"{prefix}{str(e)}"] built from a caught exception. *)
Inductive payload :=
| Obj (v : pyobj)
| ErrText (prefix : string) (e : pyexn).

Definition reply : Type := bool * payload.

Definition credentials (password_hash role email : string) : pyobj :=
  PDict (<["password" := PStr password_hash]>
        (<["role" := PStr role]>
        (<["email" := PStr email]> ∅))).

Definition default_users : pyobj :=
  PDict {[ "admin" := credentials (hash_password "admin123") "admin"
                                  "admin@yoka.knust.edu.gh" ]}.

Definition initialize_users : io unit :=
  fun w => if negb (exists_file (users_file w))
           then json_dump_users default_users w
           else (Returns tt, w).

Definition verify_password (password : string) (hashed : pyobj) : bool :=
  str_eq (hash_password password) hashed.

Definition add_user (username password role email : string) : io reply :=
  try_except
    (let* users := json_load_users in
     let* present := lift (contains username users) in
     if present then ret (false, Obj (PStr "Username already exists"))
     else
       let* users' := lift (setitem users username
                              (credentials (hash_password password) role email)) in
       let* _ := json_dump_users users' in
       ret (true, Obj (PStr "User created successfully")))
    (fun e => ret (false, ErrText "Error creating user: " e)).

Definition authenticate (username password : string) : io reply :=
  try_except
    (let* users := json_load_users in
     let* present := lift (contains username users) in
     let* verified :=
       if present then
         let* entry := lift (getitem users username) in
         let* hashed := lift (getitem entry "password") in
         ret (verify_password password hashed)
       else ret false in
     if verified then
       let* entry := lift (getitem users username) in
       let* role := lift (getitem entry "role") in
       ret (true, Obj role)
     else ret (false, Obj (PStr "Invalid credentials")))
    (fun e => ret (false, ErrText "Authentication error: " e)).

Definition get_users : io pyobj :=
  try_except json_load_users (fun _ => ret (PDict ∅)).

(** A credential store as the data model has it: a record per username. *)
Record user := User { user_password : string; user_role : string; user_email : string }.

Definition user_obj (u : user) : pyobj :=
  credentials (user_password u) (user_role u) (user_email u).

Definition users_obj (m : gmap string user) : pyobj := PDict (user_obj <$> m).

(** ** YokaInformationSystem: the record store *)

Definition LF : ascii := "010"%char.
Definition CR : ascii := "013"%char.
Definition TAB : ascii := "009"%char.
Definition SPACE : ascii := " "%char.
Definition QUOTE : ascii := "034"%char.
Definition COMMA : ascii := ","%char.

(** The values a submitted record holds: text, an [int], a [datetime.date]. *)
Inductive value :=
| VStr (s : string)
| VInt (n : Z)
| VDate (year month day : Z).

(** Decimal digits of a natural number, padded with zeros to [width]. *)
Definition zero_pad (width : nat) (n : Z) : string :=
  let digits := pretty.pretty (Z.to_N n) in
  string_of_list_ascii (repeat "0"%char (width - String.length digits)) ++ digits.

(** [date.strftime] with format %Y-%m-%d, also [str(date)], for years of four digits. *)
Definition strftime_ymd (year month day : Z) : string :=
  zero_pad 4 year ++ "-" ++ zero_pad 2 month ++ "-" ++ zero_pad 2 day.

(** The text [to_csv] hands to the csv writer for a cell. *)
Definition cell_text (v : value) : string :=
  match v with
  | VStr s => s
  | VInt n => pretty.pretty n
  | VDate y m d => strftime_ymd y m d
  end.

(** *** csv.writer as [DataFrame.to_csv] configures it:
    comma delimiter, double-quote character, doubled quotes, QUOTE_MINIMAL,
    line terminator [os.linesep], here LF (Linux, macOS).  A field is quoted
    when it holds the delimiter, the quote character or a character of the
    line terminator (CPython 3.13 and later also quote on a carriage
    return). *)
Definition csv_special (c : ascii) : bool :=
  Ascii.eqb c COMMA || Ascii.eqb c QUOTE || Ascii.eqb c LF.

Definition csv_escape (cs : list ascii) : list ascii :=
  flat_map (fun c => if Ascii.eqb c QUOTE then [QUOTE; QUOTE] else [c]) cs.

Definition csv_field (s : string) : list ascii :=
  let cs := list_ascii_of_string s in
  if existsb csv_special cs then QUOTE :: csv_escape cs ++ [QUOTE] else cs.

Fixpoint csv_join (fields : list (list ascii)) : list ascii :=
  match fields with
  | [] => []
  | [f] => f
  | f :: fs => f ++ COMMA :: csv_join fs
  end.

(** One record and its line terminator; a lone empty field is written quoted. *)
Definition csv_row (fields : list string) : string :=
  match fields with
  | [EmptyString] => string_of_list_ascii [QUOTE; QUOTE; LF]
  | _ => string_of_list_ascii (csv_join (map csv_field fields) ++ [LF])
  end.

(** [pd.DataFrame([data]).to_csv(..., header=header, index=False)] *)
Definition to_csv (header : bool) (data : list (string * value)) : string :=
  (if header then csv_row (map fst data) else "")
  ++ csv_row (map (fun kv => cell_text kv.2) data).

(** *** The tokenizer of [pd.read_csv] (C engine, default options: comma
    delimiter, double-quote character, doubled quotes, blank lines skipped).
    The states are those of the C code.  Outside a quoted field a carriage
    return also ends a line there (states EAT_CRNL and EAT_CRNL_NOP), and
    what is read after it depends on how far the C code rewinds; the reader
    is not followed past such a carriage return: AFTER_CARRIAGE_RETURN is
    final and gives no result. *)
Inductive tstate :=
| START_RECORD
| START_FIELD
| IN_FIELD
| IN_QUOTED_FIELD
| QUOTE_IN_QUOTED_FIELD
| WHITESPACE_LINE
| AFTER_CARRIAGE_RETURN.

(** [word] is the field being read, last byte first; [line] the fields of the
    current record, last field first; [lines] the records read, last first. *)
Record parser := Parser {
  state : tstate;
  word : list ascii;
  line : list string;
  lines : list (list string)
}.

Definition set_state (s : tstate) (p : parser) : parser :=
  Parser s (word p) (line p) (lines p).
Definition push_char (c : ascii) (p : parser) : parser :=
  Parser (state p) (c :: word p) (line p) (lines p).
Definition end_field (p : parser) : parser :=
  Parser (state p) [] (string_of_list_ascii (rev (word p)) :: line p) (lines p).
Definition end_line (p : parser) : parser :=
  Parser (state p) [] [] (rev (line p) :: lines p).
Definition drop_word (p : parser) : parser :=
  Parser (state p) [] (line p) (lines p).

Definition is_blank (c : ascii) : bool := Ascii.eqb c SPACE || Ascii.eqb c TAB.

Definition start_field_byte (p : parser) (c : ascii) : parser :=
  if Ascii.eqb c LF then set_state START_RECORD (end_line (end_field p))
  else if Ascii.eqb c CR then set_state AFTER_CARRIAGE_RETURN p
  else if Ascii.eqb c QUOTE then set_state IN_QUOTED_FIELD p
  else if Ascii.eqb c COMMA then set_state START_FIELD (end_field p)
  else set_state IN_FIELD (push_char c p).

Definition in_field_byte (p : parser) (c : ascii) : parser :=
  if Ascii.eqb c LF then set_state START_RECORD (end_line (end_field p))
  else if Ascii.eqb c CR then set_state AFTER_CARRIAGE_RETURN p
  else if Ascii.eqb c COMMA then set_state START_FIELD (end_field p)
  else set_state IN_FIELD (push_char c p).

(** A line of blanks only is skipped.  The C code scans it in state
    WHITESPACE_LINE and, meeting another byte, rewinds to the byte after the
    last line feed to read the line as a field; without a carriage return
    that byte is the first of the line, and the blanks are kept in [word],
    which is where reading them again in START_FIELD and IN_FIELD puts them. *)
Definition start_record_byte (p : parser) (c : ascii) : parser :=
  if Ascii.eqb c LF then set_state START_RECORD p
  else if Ascii.eqb c CR then set_state AFTER_CARRIAGE_RETURN p
  else if is_blank c then set_state WHITESPACE_LINE (push_char c p)
  else start_field_byte p c.

Definition tokenize_byte (p : parser) (c : ascii) : parser :=
  match state p with
  | START_RECORD => start_record_byte p c
  | START_FIELD => start_field_byte p c
  | IN_FIELD => in_field_byte p c
  | WHITESPACE_LINE =>
      if Ascii.eqb c LF then set_state START_RECORD (drop_word p)
      else if Ascii.eqb c CR then set_state AFTER_CARRIAGE_RETURN p
      else if is_blank c then push_char c p
      else in_field_byte p c
  | IN_QUOTED_FIELD =>
      if Ascii.eqb c QUOTE then set_state QUOTE_IN_QUOTED_FIELD p
      else push_char c p
  | QUOTE_IN_QUOTED_FIELD =>
      if Ascii.eqb c QUOTE then set_state IN_QUOTED_FIELD (push_char c p)
      else if Ascii.eqb c COMMA then set_state START_FIELD (end_field p)
      else if Ascii.eqb c LF then set_state START_RECORD (end_line (end_field p))
      else if Ascii.eqb c CR then set_state AFTER_CARRIAGE_RETURN p
      else set_state IN_FIELD (push_char c p)
  | AFTER_CARRIAGE_RETURN => p
  end.

(** End of input: an open record is closed; an open quoted field is an
    error; no result after a carriage return. *)
Definition handle_eof (p : parser) : option (outcome (list (list string))) :=
  match state p with
  | START_RECORD | WHITESPACE_LINE => Some (Returns (rev (lines p)))
  | IN_QUOTED_FIELD => Some (Raises ParserError)
  | IN_FIELD | START_FIELD | QUOTE_IN_QUOTED_FIELD =>
      Some (Returns (rev (lines (end_line (end_field p)))))
  | AFTER_CARRIAGE_RETURN => None
  end.

Definition tokenize (text : string) : option (outcome (list (list string))) :=
  handle_eof (fold_left tokenize_byte (list_ascii_of_string text)
                        (Parser START_RECORD [] [] [])).

(** *** Bytes of the file *)

Definition byte (c : ascii) : N := N_of_ascii c.
Definition between (low high : N) (c : ascii) : bool :=
  N.leb low (byte c) && N.leb (byte c) high.

(** The file is decoded as UTF-8 with strict error handling.  The automaton
    is that of the well-formed byte sequences of the Unicode standard: no
    overlong form, no surrogate, nothing above U+10FFFF. *)
Inductive utf8_state :=
| U_START
| U_ONE_MORE
| U_TWO_MORE
| U_THREE_MORE
| U_AFTER_E0
| U_AFTER_ED
| U_AFTER_F0
| U_AFTER_F4
| U_INVALID.

Definition utf8_byte (st : utf8_state) (c : ascii) : utf8_state :=
  match st with
  | U_START =>
      if between 0 127 c then U_START
      else if between 194 223 c then U_ONE_MORE
      else if between 224 224 c then U_AFTER_E0
      else if between 225 236 c then U_TWO_MORE
      else if between 237 237 c then U_AFTER_ED
      else if between 238 239 c then U_TWO_MORE
      else if between 240 240 c then U_AFTER_F0
      else if between 241 243 c then U_THREE_MORE
      else if between 244 244 c then U_AFTER_F4
      else U_INVALID
  | U_ONE_MORE => if between 128 191 c then U_START else U_INVALID
  | U_TWO_MORE => if between 128 191 c then U_ONE_MORE else U_INVALID
  | U_THREE_MORE => if between 128 191 c then U_TWO_MORE else U_INVALID
  | U_AFTER_E0 => if between 160 191 c then U_ONE_MORE else U_INVALID
  | U_AFTER_ED => if between 128 159 c then U_ONE_MORE else U_INVALID
  | U_AFTER_F0 => if between 144 191 c then U_TWO_MORE else U_INVALID
  | U_AFTER_F4 => if between 128 143 c then U_TWO_MORE else U_INVALID
  | U_INVALID => U_INVALID
  end.

Definition utf8_run (st : utf8_state) (cs : list ascii) : utf8_state :=
  fold_left utf8_byte cs st.

Definition valid_utf8 (text : string) : bool :=
  match utf8_run U_START (list_ascii_of_string text) with
  | U_START => true
  | _ => false
  end.

(** The fields are C strings in the reader, which end at a zero byte; files
    that hold a zero byte are not represented. *)
Definition NUL : ascii := "000"%char.
Definition has_nul (text : string) : bool :=
  existsb (Ascii.eqb NUL) (list_ascii_of_string text).

(** A byte order mark at the start of the file is skipped. *)
Definition skip_bom (text : string) : string :=
  match text with
  | String c1 (String c2 (String c3 rest)) =>
      if N.eqb (byte c1) 239 && N.eqb (byte c2) 187 && N.eqb (byte c3) 191
      then rest else text
  | _ => text
  end.

(** The file is read in pieces of 262144 bytes and, with [low_memory] as it
    is by default, converted in batches of records, the more columns the
    fewer records.  What is read where pieces or batches meet depends on
    where they meet; represented is the file of one piece and of at most
    262144 fields, which is one batch. *)
Definition chunk : Z := 262144.
Definition one_piece (text : string) : bool :=
  Z.leb (Z.of_nat (String.length text)) chunk.
Definition one_batch (width records : nat) : bool :=
  Z.leb (Z.of_nat records * Z.of_nat width) chunk.

(** *** The conversion of the columns (dtype inference) *)

(** A cell of the table: missing ([NaN]), a [str], an [int64], a [float64]
    or a [bool].  The floats represented are those with the value of an
    integer, [Float64 n] for [float(n)]. *)
Inductive cell :=
| NaN
| Tok (text : string)
| Int64 (n : Z)
| Float64 (n : Z)
| Boolean (b : bool).

Record DataFrame := { df_columns : list string; df_rows : list (list cell) }.

(** [pd.DataFrame()] *)
Definition empty_frame : DataFrame := {| df_columns := []; df_rows := [] |}.

(** The tokens read as missing values by default. *)
Definition na_values : list string :=
  [ ""; "#N/A"; "#N/A N/A"; "#NA"; "-1.#IND"; "-1.#QNAN"; "-NaN"; "-nan";
    "1.#IND"; "1.#QNAN"; "<NA>"; "N/A"; "NA"; "NULL"; "NaN"; "None";
    "n/a"; "nan"; "null" ].

Definition is_na (token : string) : bool := existsb (String.eqb token) na_values.

Definition is_digit (c : ascii) : bool := between 48 57 c.
Definition is_space (c : ascii) : bool := between 9 13 c || Ascii.eqb c SPACE.
Definition is_sign (c : ascii) : bool := Ascii.eqb c "+" || Ascii.eqb c "-".
Definition lower (c : ascii) : ascii :=
  if between 65 90 c then ascii_of_N (byte c + 32) else c.

(** A token of one to [limit] decimal digits, and its value. *)
Definition digits (limit : nat) (token : string) : bool :=
  negb (String.eqb token "")
  && Nat.leb (String.length token) limit
  && forallb is_digit (list_ascii_of_string token).

Definition number (token : string) : Z :=
  fold_left (fun n c => 10 * n + (Z.of_N (byte c) - 48))
            (list_ascii_of_string token) 0.

Definition bool_word (token : string) : bool :=
  existsb (String.eqb token) ["True"; "TRUE"; "true"; "False"; "FALSE"; "false"].
Definition true_word (token : string) : bool :=
  existsb (String.eqb token) ["True"; "TRUE"; "true"].

(** Tokens that the conversions to numbers and booleans may accept.  The
    tests err on the side of yes: every text that the integer parser, the
    float parser (blanks, a sign, digits, a point, digits, an exponent,
    blanks; the words for infinity) or the boolean parser accepts passes
    one of them. *)
Fixpoint drop_while (test : ascii -> bool) (cs : list ascii) : list ascii :=
  match cs with
  | c :: rest => if test c then drop_while test rest else cs
  | [] => []
  end.

Definition skip_sign (cs : list ascii) : list ascii :=
  match cs with
  | c :: rest => if is_sign c then rest else cs
  | [] => []
  end.

Definition float_like (cs : list ascii) : bool :=
  let mantissa := drop_while is_digit (skip_sign (drop_while is_space cs)) in
  let fraction :=
    match mantissa with
    | c :: rest => if Ascii.eqb c "." then drop_while is_digit rest else mantissa
    | [] => []
    end in
  let exponent :=
    match fraction with
    | c :: rest =>
        if Ascii.eqb (lower c) "e" then drop_while is_digit (skip_sign rest)
        else fraction
    | [] => []
    end in
  match drop_while is_space exponent with
  | [] => true
  | _ :: _ => false
  end.

Definition word_like (word : string) (cs : list ascii) : bool :=
  let core := map lower (drop_while (fun c => is_space c || is_sign c) cs) in
  bool_decide (list_ascii_of_string word `prefix_of` core).

Definition number_like (token : string) : bool :=
  let cs := list_ascii_of_string token in
  float_like cs || word_like "inf" cs || word_like "nan" cs
  || existsb (fun w => bool_decide (map lower cs = list_ascii_of_string w))
             ["true"; "false"].

(** A token that is text beyond doubt: it is no missing value and none of
    the conversions accepts it. *)
Definition plainly_text (token : string) : bool :=
  negb (is_na token) && negb (number_like token).

Inductive dtype := int64 | float64 | bool_ | object.

(** The type of a column, from its tokens.  The conversions are tried in
    the order int64, float64, bool, and a column that none of them takes
    is left as text.  Represented are: the column without records; digits
    only (int64); digits and missing values (float64, the digits few enough
    for the float to be exact); True and False only (bool); and the column
    with a token that is plainly text (object).  Other columns (signs,
    fractions, exponents, booleans beside missing values, ...) get [None]. *)
Definition infer (tokens : list string) : option dtype :=
  match tokens with
  | [] => Some object
  | _ :: _ =>
      if forallb (digits 18) tokens then Some int64
      else if forallb (fun token => is_na token || digits 15 token) tokens
      then Some float64
      else if forallb bool_word tokens then Some bool_
      else if existsb plainly_text tokens then Some object
      else None
  end.

Definition cell_of_token (token : string) : cell :=
  if is_na token then NaN else Tok token.

Definition convert (dt : dtype) (token : string) : cell :=
  match dt with
  | int64 => Int64 (number token)
  | float64 => if is_na token then NaN else Float64 (number token)
  | bool_ => Boolean (true_word token)
  | object => cell_of_token token
  end.

(** Column [j] of the records; a record shorter than the header is
    completed with empty fields, which are missing values. *)
Definition column (j : nat) (data : list (list string)) : list string :=
  map (fun fields => nth j fields "") data.

Definition inferred (width : nat) (data : list (list string)) : option (list dtype) :=
  mapM (fun j => infer (column j data)) (seq 0 width).

Definition read_record (dtypes : list dtype) (fields : list string) : list cell :=
  zip_with convert dtypes (fields ++ repeat "" (length dtypes - length fields)).

(** Column names are used as read when they are distinct and not empty, and
    a first record no longer than the header leaves no index column; other
    files (renamed columns, an implicit index) are outside this model, which
    answers [None] for them. *)
Definition plain_header (header : list string) (data : list (list string)) : bool :=
  forallb (fun name => negb (String.eqb name "")) header
  && bool_decide (NoDup header)
  && match data with
     | first :: _ => (length first <=? length header)%nat
     | [] => true
     end.

(** *** [pd.read_csv] with default arguments.  [None] is the answer for the
    files that are not represented.  A file without a line to read has no
    columns, whatever its size.  Invalid UTF-8 raises when the fields are
    decoded; when the tokenizer fails as well, which error comes first is
    not represented. *)
Definition read_csv (text : string) : option (outcome DataFrame) :=
  if has_nul text then None
  else
    match tokenize (skip_bom text) with
    | None => None
    | Some (Returns []) => Some (Raises EmptyDataError)
    | Some (Raises e) =>
        if one_piece text && valid_utf8 text then Some (Raises e) else None
    | Some (Returns (header :: data)) =>
        if one_piece text && one_batch (length header) (length data)
           && plain_header header data
        then
          if forallb (fun fields => (length fields <=? length header)%nat) data
          then
            if valid_utf8 text then
              match inferred (length header) data with
              | Some dtypes =>
                  Some (Returns {| df_columns := header;
                                   df_rows := map (read_record dtypes) data |})
              | None => None
              end
            else Some (Raises UnicodeDecodeError)
          else if valid_utf8 text then Some (Raises ParserError) else None
        else None
    end.

(** What the page shows: [st.error(...)] or [st.markdown(...)]. *)
Inductive rendered :=
| StError (message : payload)
| StMarkdown (html : string).

Definition columns : list string :=
  [ "timestamp"; "official_name"; "date_of_birth"; "age"; "phone_numbers";
    "email"; "interests_skills"; "on_campus_business"; "business_name_type";
    "father_name"; "father_phone"; "father_church_member"; "father_branch";
    "father_position"; "father_occupation";
    "mother_name"; "mother_phone"; "mother_church_member"; "mother_branch";
    "mother_position"; "mother_occupation";
    "guardian_name"; "guardian_phone"; "guardian_church_member"; "guardian_branch";
    "guardian_position"; "guardian_occupation";
    "school_name"; "program"; "current_class"; "hostel_hall"; "room_number";
    "church_branch"; "branch_pastor"; "shepherd_group"; "yoka_position";
    "submitted_by" ].

(** Writing [text] to [yoka_data.csv]: appended when [append], else replacing
    the file.  A write that fails after [open] leaves the file as [open] made
    it: created or truncated for a fresh write, as it was for an append. *)
Definition write_data (append : bool) (text : string) : io unit :=
  fun w =>
    let old := if append then default "" (data_file w) else "" in
    match disk w with
    | Healthy => (Returns tt, set_data_file (Some (old ++ text)) w)
    | OpenFails => (Raises PermissionError, w)
    | WriteFails => (Raises OSError, set_data_file (Some old) w)
    end.

(** [pd.DataFrame(columns=columns).to_csv(self.data_file, index=False)] when
    the file does not exist. *)
Definition initialize_data : io unit :=
  fun w => if negb (exists_file (data_file w))
           then write_data false (csv_row columns) w
           else (Returns tt, w).

Definition save_data (data : list (string * value)) : io unit :=
  fun w => if exists_file (data_file w)
           then write_data true (to_csv false data) w
           else write_data false (to_csv true data) w.

(** [load_data] returns the frame; the second component is what it shows. *)
Definition load_data (w : world) : option (DataFrame * list rendered) :=
  match data_file w with
  | Some text =>
      match read_csv text with
      | Some (Returns df) => Some (df, [])
      | Some (Raises e) =>
          Some (empty_frame, [StError (ErrText "Error loading data: " e)])
      | None => None
      end
  | None => Some (empty_frame, [])
  end.

(** [YokaInformationSystem()]: both stores are initialised. *)
Definition yoka_system : io unit :=
  let* _ := initialize_users in initialize_data.

(** ** main_application: the registration form *)

(** [st.radio(..., ["No", "Yes"])] *)
Inductive yes_no := No | Yes.

Definition radio (choice : yes_no) : string :=
  match choice with No => "No" | Yes => "Yes" end.

(** The widget values of one run of the form. The four [_input] fields are
    text inputs drawn only when the radio button next to them says Yes. *)
Record form := Form {
  official_name : string;
  date_of_birth : Z * Z * Z;
  age : Z;
  phone_numbers : string;
  email : string;
  interests_skills : string;
  on_campus_business : yes_no;
  business_name_type_input : string;
  father_name : string;
  father_phone : string;
  father_church_member : yes_no;
  father_branch_input : string;
  father_position_input : string;
  father_occupation : string;
  mother_name : string;
  mother_phone : string;
  mother_church_member : yes_no;
  mother_branch_input : string;
  mother_position_input : string;
  mother_occupation : string;
  guardian_name : string;
  guardian_phone : string;
  guardian_church_member : yes_no;
  guardian_branch_input : string;
  guardian_position_input : string;
  guardian_occupation : string;
  school_name : string;
  program : string;
  current_class : string;
  hostel_hall : string;
  room_number : string;
  church_branch : string;
  branch_pastor : string;
  shepherd_group : string;
  yoka_position : string
}.

(** [x = st.text_input(...) if choice == "Yes" else ""] *)
Definition when_yes (choice : yes_no) (typed : string) : string :=
  match choice with Yes => typed | No => "" end.

Definition business_name_type (f : form) : string :=
  when_yes (on_campus_business f) (business_name_type_input f).
Definition father_branch (f : form) : string :=
  when_yes (father_church_member f) (father_branch_input f).
Definition father_position (f : form) : string :=
  when_yes (father_church_member f) (father_position_input f).
Definition mother_branch (f : form) : string :=
  when_yes (mother_church_member f) (mother_branch_input f).
Definition mother_position (f : form) : string :=
  when_yes (mother_church_member f) (mother_position_input f).
Definition guardian_branch (f : form) : string :=
  when_yes (guardian_church_member f) (guardian_branch_input f).
Definition guardian_position (f : form) : string :=
  when_yes (guardian_church_member f) (guardian_position_input f).

Definition date_value (d : Z * Z * Z) : value := VDate d.1.1 d.1.2 d.2.

Definition required_fields (f : form) : list (string * value) :=
  [ ("Official Name", VStr (official_name f));
    ("Date of Birth", date_value (date_of_birth f));
    ("Age", VInt (age f));
    ("Phone Numbers", VStr (phone_numbers f));
    ("Email", VStr (email f));
    ("School Name", VStr (school_name f));
    ("Program", VStr (program f));
    ("Current Class", VStr (current_class f));
    ("Church Branch", VStr (church_branch f));
    ("Branch Pastor", VStr (branch_pastor f)) ].

(** Truth value of a Python object: empty text and zero are false, a date
    is always true. *)
Definition truthy (v : value) : bool :=
  match v with
  | VStr s => negb (String.eqb s "")
  | VInt n => negb (Z.eqb n 0)
  | VDate _ _ _ => true
  end.

(** [[field for field, value in required_fields.items() if not value]] *)
Definition missing_fields (f : form) : list string :=
  map fst (filter (fun kv => negb (truthy kv.2)) (required_fields f)).

(** [datetime.now()] *)
Record datetime := Datetime {
  dt_year : Z; dt_month : Z; dt_day : Z; dt_hour : Z; dt_minute : Z; dt_second : Z
}.

(** [strftime] with format %Y-%m-%d %H:%M:%S *)
Definition strftime_full (t : datetime) : string :=
  strftime_ymd (dt_year t) (dt_month t) (dt_day t) ++ " "
  ++ zero_pad 2 (dt_hour t) ++ ":" ++ zero_pad 2 (dt_minute t) ++ ":"
  ++ zero_pad 2 (dt_second t).

Definition form_data (f : form) (now : datetime) (username : string)
  : list (string * value) :=
  [ ("timestamp", VStr (strftime_full now));
    ("official_name", VStr (official_name f));
    ("date_of_birth", VStr (cell_text (date_value (date_of_birth f))));
    ("age", VInt (age f));
    ("phone_numbers", VStr (phone_numbers f));
    ("email", VStr (email f));
    ("interests_skills", VStr (interests_skills f));
    ("on_campus_business", VStr (radio (on_campus_business f)));
    ("business_name_type", VStr (business_name_type f));
    ("father_name", VStr (father_name f));
    ("father_phone", VStr (father_phone f));
    ("father_church_member", VStr (radio (father_church_member f)));
    ("father_branch", VStr (father_branch f));
    ("father_position", VStr (father_position f));
    ("father_occupation", VStr (father_occupation f));
    ("mother_name", VStr (mother_name f));
    ("mother_phone", VStr (mother_phone f));
    ("mother_church_member", VStr (radio (mother_church_member f)));
    ("mother_branch", VStr (mother_branch f));
    ("mother_position", VStr (mother_position f));
    ("mother_occupation", VStr (mother_occupation f));
    ("guardian_name", VStr (guardian_name f));
    ("guardian_phone", VStr (guardian_phone f));
    ("guardian_church_member", VStr (radio (guardian_church_member f)));
    ("guardian_branch", VStr (guardian_branch f));
    ("guardian_position", VStr (guardian_position f));
    ("guardian_occupation", VStr (guardian_occupation f));
    ("school_name", VStr (school_name f));
    ("program", VStr (program f));
    ("current_class", VStr (current_class f));
    ("hostel_hall", VStr (hostel_hall f));
    ("room_number", VStr (room_number f));
    ("church_branch", VStr (church_branch f));
    ("branch_pastor", VStr (branch_pastor f));
    ("shepherd_group", VStr (shepherd_group f));
    ("yoka_position", VStr (yoka_position f));
    ("submitted_by", VStr username) ].

Definition success_html : string :=
  "<div class=" ++ String QUOTE "success-message" ++ String QUOTE
  ">✅ Information submitted successfully! Thank you for registering with YoKA KNUST.</div>".

(** The body of [if submitted:]: the required fields are checked, and only a
    complete form is saved. *)
Definition submit (f : form) (now : datetime) (username : string)
  : io (list rendered) :=
  let missing := missing_fields f in
  match missing with
  | _ :: _ =>
      ret [StError (Obj (PStr ("Please fill in the following required fields: "
                               ++ String.concat ", " missing)))]
  | [] =>
      let* _ := save_data (form_data f now username) in
      ret [StMarkdown success_html]
  end.

(** * Notions used in the statements *)

(** ** Digests and replies *)

Definition lower_hex (c : ascii) : Prop :=
  In c (list_ascii_of_string "0123456789abcdef").

Definition invalid_credentials : reply := (false, Obj (PStr "Invalid credentials")).
Definition username_exists : reply := (false, Obj (PStr "Username already exists")).
Definition user_created : reply := (true, Obj (PStr "User created successfully")).

(** An operation never raises: on every world it returns a value. *)
Definition never_raises {A} (op : io A) : Prop :=
  forall w, exists a w', op w = (Returns a, w').

(** ** The text of the record store *)

(** The file that holds the records [rows] under the header [columns]. *)
Fixpoint csv_text (rows : list (list string)) : string :=
  match rows with
  | [] => ""
  | r :: rs => csv_row r ++ csv_text rs
  end.

Definition store_text (rows : list (list string)) : string :=
  csv_text (columns :: rows).

Definition row_texts (data : list (string * value)) : list string :=
  map (fun kv => cell_text kv.2) data.





(** ** What a token is loaded as *)





(** ** Runs of the tokenizer *)

Definition run (p : parser) (cs : list ascii) : parser :=
  fold_left tokenize_byte cs p.




(** ** Example stores and submissions *)

Definition admin_record : user :=
  User (hash_password "admin123") "admin" "admin@yoka.knust.edu.gh".

(** The store after the scenario's first step: the seeded admin and bob. *)
Definition m_bob : gmap string user :=
  <["bob" := User (hash_password "pw1") "user" "bob@x.com"]> {["admin" := admin_record]}.

Definition w_admin : world :=
  World (Some (Doc (users_obj {["admin" := admin_record]}))) None Healthy.
Definition w_bob : world := World (Some (Doc (users_obj m_bob))) None Healthy.
Definition w_fresh : world := World None None Healthy.
Definition w_readonly : world := World None None OpenFails.

Definition f_ama : form :=
  Form "Ama Mensah" (2003, 5, 17) 21 "0241234567, 0207654321" "ama@example.com"
       "singing, football" No ""
       "Kofi Mensah" "0200000000" Yes "Kumasi" "Elder" "Farmer"
       "Esi Mensah" "0201111111" No "" "" "Trader"
       "" "" No "" "" ""
       "KNUST" "Computer Science" "Level 300" "Unity Hall" "A45"
       "Ayeduase" "Rev. Osei" "Group 3" "".

(** The same form with the email left empty. *)
Definition f_no_email : form :=
  Form "Ama Mensah" (2003, 5, 17) 21 "0241234567, 0207654321" ""
       "singing, football" No ""
       "Kofi Mensah" "0200000000" Yes "Kumasi" "Elder" "Farmer"
       "Esi Mensah" "0201111111" No "" "" "Trader"
       "" "" No "" "" ""
       "KNUST" "Computer Science" "Level 300" "Unity Hall" "A45"
       "Ayeduase" "Rev. Osei" "Group 3" "".

Definition now_ex : datetime := Datetime 2024 3 9 8 5 0.

(** The world after [YokaInformationSystem()] ran on an empty directory. *)
Definition w_started : world := (yoka_system w_fresh).2.

(** The record the complete example form submits. *)
Definition r_ama : list (string * value) := form_data f_ama now_ex "admin".

(** A record whose free text holds a comma, double quotes and a line feed. *)
Definition r_quoted : list (string * value) :=
  form_data
    (Form "Ama Mensah" (2003, 5, 17) 21 "0241234567, 0207654321" "ama@example.com"
       ("singing, " ++ String QUOTE ("football" ++ String QUOTE (String LF "chess")))
       Yes "kiosk" "Kofi Mensah" "0200000000" Yes "Kumasi" "Elder" "Farmer"
       "Esi Mensah" "0201111111" Yes "Kumasi" "Deaconess" "Trader"
       "Yaw Mensah" "0202222222" Yes "Kumasi" "Member" "Teacher"
       "KNUST" "Computer Science" "Level 300" "Unity Hall" "A45"
       "Ayeduase" "Rev. Osei" "Group 3" "Usher")
    now_ex "admin".

(** The same record with other text where the phone number of the father
    goes. *)
Definition r_unlisted : list (string * value) :=
  form_data
    (Form "Ama Mensah" (2003, 5, 17) 21 "0241234567, 0207654321" "ama@example.com"
       "singing, football" No ""
       "Kofi Mensah" "unlisted" Yes "Kumasi" "Elder" "Farmer"
       "Esi Mensah" "0201111111" No "" "" "Trader"
       "" "" No "" "" ""
       "KNUST" "Computer Science" "Level 300" "Unity Hall" "A45"
       "Ayeduase" "Rev. Osei" "Group 3" "")
    now_ex "admin".

(** The rows of the table [load_data] returns. *)
Definition table_of (w : world) : list (list cell) :=
  match load_data w with
  | Some (df, _) => df_rows df
  | None => []
  end.

(** ** The round trip as C6 states it *)



(** * The pages: one run of the script *)

(** [st.session_state], with the keys the script uses; a key that is not
    set is [None].  [logged_in] is only ever given [True] or [False], the
    username the text of the login field, the role what [authenticate]
    returned. *)
Record session_state := Session {
  logged_in : option bool;
  ss_username : option string;
  ss_role : option pyobj;
  show_user_management : option bool
}.

(** What ends a run early: an exception that nothing catches, among them
    the [AttributeError] of reading a key of the session that is not set. *)
Inductive fault :=
| Exception (e : pyexn)
| AttributeError (name : string).

(** How a piece of the script ends: it goes on with a value, it raises, it
    calls [st.rerun()], or it reaches data that this development does not
    represent. *)
Inductive ctl (A : Type) :=
| Done (a : A)
| Fault (f : fault)
| Rerun
| Unrepresented.
Arguments Done {A} a.
Arguments Fault {A} f.
Arguments Rerun {A}.
Arguments Unrepresented {A}.

(** What a run puts on the page.  Recorded are the messages and tables
    whose content depends on the run; titles, captions and layout are not. *)
Inductive element :=
| st_error (message : payload)
| st_success (message : payload)
| st_info (text : string)
| st_write (text : string)
| st_markdown (html : string)
| st_dataframe_users (rows : gmap string (pyobj * pyobj))
| st_dataframe (df : DataFrame)
| st_download_button (df : DataFrame).

(** The files, the session and the page of the run. *)
Record app_state := App {
  fs : world;
  ss : session_state;
  page : list element
}.

Definition ui (A : Type) : Type := app_state -> ctl A * app_state.

Definition ui_ret {A} (x : A) : ui A := fun a => (Done x, a).
Definition ui_bind {A B} (m : ui A) (k : A -> ui B) : ui B :=
  fun a => match m a with
           | (Done x, a') => k x a'
           | (Fault f, a') => (Fault f, a')
           | (Rerun, a') => (Rerun, a')
           | (Unrepresented, a') => (Unrepresented, a')
           end.

Notation "'let+' x ':=' m 'in' k" := (ui_bind m (fun x => k))
  (at level 10, x name, m at level 100, k at level 200, only parsing).

(** A call of an operation of the two systems: it works on the files, and
    what it raises nothing catches. *)
Definition call {A} (op : io A) : ui A :=
  fun a => match op (fs a) with
           | (Returns x, w) => (Done x, App w (ss a) (page a))
           | (Raises e, w) => (Fault (Exception e), App w (ss a) (page a))
           end.

Definition show (e : element) : ui unit :=
  fun a => (Done tt, App (fs a) (ss a) (page a ++ [e])).

Definition st_rerun {A} : ui A := fun a => (Rerun, a).
Definition unrepresented {A} : ui A := fun a => (Unrepresented, a).

Definition get_session : ui session_state := fun a => (Done (ss a), a).
Definition set_session (s : session_state) : ui unit :=
  fun a => (Done tt, App (fs a) s (page a)).

(** [st.session_state.<name>] *)
Definition attribute {A} (name : string) (value : option A) : ui A :=
  match value with
  | Some v => ui_ret v
  | None => fun a => (Fault (AttributeError name), a)
  end.

Definition nonempty (s : string) : bool := negb (String.eqb s "").

(** ** login_page *)

Record login_inputs := LoginInputs {
  li_username : string;
  li_password : string;
  login_btn : bool;
  clear_btn : bool;
  new_admin_user : string;
  new_admin_password : string;
  new_admin_email : string;
  create_admin : bool
}.

Definition login_page (i : login_inputs) : ui unit :=
  let+ _ :=
    if login_btn i then
      if nonempty (li_username i) && nonempty (li_password i) then
        let+ answer := call (authenticate (li_username i) (li_password i)) in
        if answer.1 then
          match answer.2 with
          | Obj message =>
              let+ s := get_session in
              let+ _ := set_session (Session (Some true) (Some (li_username i))
                                             (Some message)
                                             (show_user_management s)) in
              let+ _ := show (st_success (Obj (PStr "Login successful!"))) in
              st_rerun
          | ErrText _ _ => unrepresented
          end
        else show (st_error answer.2)
      else show (st_error (Obj (PStr "Please enter both username and password")))
    else ui_ret tt in
  let+ _ := if clear_btn i then st_rerun else ui_ret tt in
  let+ s := get_session in
  match logged_in s with
  | None =>
      if create_admin i then
        if nonempty (new_admin_user i) && nonempty (new_admin_password i) then
          let+ answer := call (add_user (new_admin_user i) (new_admin_password i)
                                        "admin" (new_admin_email i)) in
          if answer.1 then show (st_success answer.2) else show (st_error answer.2)
        else show (st_error (Obj (PStr "Please fill all fields")))
      else ui_ret tt
  | Some _ => ui_ret tt
  end.

(** ** user_management *)

(** [st.selectbox("Role", ["user", "admin"])] *)
Inductive role_option := role_user | role_admin.

Definition role_text (r : role_option) : string :=
  match r with role_user => "user" | role_admin => "admin" end.

Record user_inputs := UserInputs {
  new_username : string;
  new_password : string;
  new_role : role_option;
  new_email : string;
  add_user_btn : bool
}.

(** Truth value of what [json.load] returned; that of a float is not
    represented. *)
Definition truth_value (o : pyobj) : option bool :=
  match o with
  | PNone => Some false
  | PBool b => Some b
  | PInt z => Some (negb (Z.eqb z 0))
  | PFloat _ => None
  | PStr s => Some (nonempty s)
  | PList l => Some (match l with [] => false | _ :: _ => true end)
  | PDict d => Some (negb (Nat.eqb (size d) 0))
  end.

(** The row of one user: [info["role"]] and [info.get("email", "")]. *)
Definition user_row (info : pyobj) : outcome (pyobj * pyobj) :=
  match getitem info "role" with
  | Raises e => Raises e
  | Returns r =>
      Returns (r, match info with
                  | PDict fields => default (PStr "") (fields !! "email")
                  | _ => PStr ""
                  end)
  end.

Global Instance pyexn_eq_dec : EqDecision pyexn.
Proof. solve_decision. Defined.

Definition raised {A} (o : outcome A) : option pyexn :=
  match o with Raises e => Some e | Returns _ => None end.
Definition returned {A} (o : outcome A) : option A :=
  match o with Returns x => Some x | Raises _ => None end.

(** The table of the users, keyed by username (the order of its rows, that
    of the file, is not recorded).  The rows are built in the order of the
    file and the first row that fails raises: when several rows fail with
    different exceptions, which one is raised is not represented. *)
Definition users_df (users : gmap string pyobj) : ctl (gmap string (pyobj * pyobj)) :=
  let rows := user_row <$> users in
  match omap raised (map_to_list rows).*2 with
  | [] => Done (omap returned rows)
  | e :: es =>
      if forallb (fun e' => bool_decide (e' = e)) es then Fault (Exception e)
      else Unrepresented
  end.

Definition user_management (i : user_inputs) : ui unit :=
  let+ _ :=
    if add_user_btn i then
      if nonempty (new_username i) && nonempty (new_password i) then
        let+ answer := call (add_user (new_username i) (new_password i)
                                      (role_text (new_role i)) (new_email i)) in
        if answer.1 then show (st_success answer.2) else show (st_error answer.2)
      else show (st_error (Obj (PStr "Please fill all required fields")))
    else ui_ret tt in
  let+ users := call get_users in
  match truth_value users with
  | None => unrepresented
  | Some false => show (st_info "No users found.")
  | Some true =>
      match users with
      | PDict d =>
          let+ rows := (fun a => (users_df d, a)) in
          show (st_dataframe_users rows)
      | _ => fun a => (Fault (AttributeError "items"), a)
      end
  end.

(** ** main_application *)

Record main_inputs := MainInputs {
  logout_btn : bool;
  user_management_btn : bool;
  user_form : user_inputs;
  the_form : form;
  submitted : bool;
  clock : datetime;
  show_data : bool
}.

(** [data.empty] *)
Definition df_empty (df : DataFrame) : bool :=
  match df_rows df, df_columns df with
  | [], _ | _, [] => true
  | _, _ => false
  end.

Definition element_of (r : rendered) : element :=
  match r with
  | StError m => st_error m
  | StMarkdown html => st_markdown html
  end.

Fixpoint show_all (es : list element) : ui unit :=
  match es with
  | [] => ui_ret tt
  | e :: es' => let+ _ := show e in show_all es'
  end.

(** The session's username is read for the welcome line and again where
    the record of a complete form is assembled; nothing in between sets it,
    so the value read first is passed on.  The [try] around the data
    section catches nothing: [load_data] handles its own errors and the
    rest does not raise. *)
Definition main_application (i : main_inputs) : ui unit :=
  let+ s := get_session in
  let+ username := attribute "username" (ss_username s) in
  let+ _ := show (st_write ("Welcome, **" ++ username ++ "**")) in
  let+ _ :=
    if logout_btn i then
      let+ _ := set_session (Session None None None (show_user_management s)) in
      st_rerun
    else ui_ret tt in
  let+ role := attribute "role" (ss_role s) in
  let+ _ :=
    if str_eq "admin" role then
      let+ _ :=
        if user_management_btn i then
          set_session (Session (logged_in s) (ss_username s) (ss_role s)
                               (Some (negb (default false (show_user_management s)))))
        else ui_ret tt in
      let+ s' := get_session in
      if default false (show_user_management s') then user_management (user_form i)
      else ui_ret tt
    else ui_ret tt in
  let+ _ :=
    if submitted i then
      let+ out := call (submit (the_form i) (clock i) username) in
      show_all (map element_of out)
    else ui_ret tt in
  if show_data i then
    fun a =>
      match load_data (fs a) with
      | None => (Unrepresented, a)
      | Some (data, shown) =>
          (let+ _ := show_all (map element_of shown) in
           if negb (df_empty data) then
             let+ _ := show (st_dataframe data) in
             show (st_download_button data)
           else show (st_info "No data submitted yet.")) a
      end
  else ui_ret tt.

(** ** The script *)

Record script_inputs := ScriptInputs {
  login_inputs_of : login_inputs;
  main_inputs_of : main_inputs
}.

(** One run, on a page that starts empty: the two systems are built, the
    key [logged_in] is set when it is not, and the login page or the
    application is shown. *)
Definition script (i : script_inputs) : ui unit :=
  let+ _ := call yoka_system in
  let+ s := get_session in
  let+ _ :=
    match logged_in s with
    | None => set_session (Session (Some false) (ss_username s) (ss_role s)
                                   (show_user_management s))
    | Some _ => ui_ret tt
    end in
  let+ s' := get_session in
  let+ on := attribute "logged_in" (logged_in s') in
  if negb on then login_page (login_inputs_of i)
  else main_application (main_inputs_of i).

(** * Sequences of calls *)

(** The arguments of one [add_user] call. *)
Record registration := Registration {
  reg_username : string;
  reg_password : string;
  reg_role : string;
  reg_email : string
}.

(** [add_user] called for each registration in turn; the replies in order. *)
Fixpoint add_users (rs : list registration) : io (list reply) :=
  match rs with
  | [] => ret []
  | r :: rs' =>
      let* answer := add_user (reg_username r) (reg_password r)
                              (reg_role r) (reg_email r) in
      let* answers := add_users rs' in
      ret (answer :: answers)
  end.

(** The record a registration stores under its username. *)
Definition registered (r : registration) : string * pyobj :=
  (reg_username r,
   credentials (hash_password (reg_password r)) (reg_role r) (reg_email r)).

(** The replies to a sequence of registrations when the usernames in [taken]
    are in the store. *)
Fixpoint replies (taken : gset string) (rs : list registration) : list reply :=
  match rs with
  | [] => []
  | r :: rs' =>
      (if decide (reg_username r ∈ taken) then username_exists else user_created)
      :: replies ({[reg_username r]} ∪ taken) rs'
  end.

(** [save_data] called for each record in turn. *)
Fixpoint save_all (records : list (list (string * value))) : io unit :=
  match records with
  | [] => ret tt
  | r :: records' => let* _ := save_data r in save_all records'
  end.


(** The required values are all true: the eight texts are not empty and
    the age is not zero. *)
Definition complete (f : form) : Prop :=
  official_name f <> "" /\ age f <> 0 /\ phone_numbers f <> "" /\ email f <> ""
  /\ school_name f <> "" /\ program f <> "" /\ current_class f <> ""
  /\ church_branch f <> "" /\ branch_pastor f <> "".

(** A text of blanks and line feeds only. *)
Definition blank_text (text : string) : Prop :=
  Forall (fun c => c = LF \/ is_blank c = true) (list_ascii_of_string text).

(** Three registrations, the last for a name the first has taken. *)
Definition rs_example : list registration :=
  [ Registration "bob" "pw1" "user" "bob@x.com";
    Registration "admin" "letmein" "admin" "";
    Registration "bob" "pw2" "admin" "" ].

(** ** What the pages show *)

(** The login page's message for a refused attempt. *)
Definition refusal (i : login_inputs) : string :=
  if nonempty (li_username i) && nonempty (li_password i)
  then "Invalid credentials"
  else "Please enter both username and password".

Definition welcome (username : string) : element :=
  st_write ("Welcome, **" ++ username ++ "**").



(** Sessions and inputs of the examples. *)
Definition visitor : session_state := Session (Some false) None None None.
Definition member_bob : session_state :=
  Session (Some true) (Some "bob") (Some (PStr "user")) None.
Definition w_bob_started : world :=
  World (Some (Doc (users_obj m_bob))) (Some (store_text [])) Healthy.

Definition login_bob : login_inputs := LoginInputs "bob" "pw1" true false "" "" "" false.
Definition login_blank : login_inputs := LoginInputs "bob" "" true false "eve" "pw" "" true.
Definition register_eve : login_inputs := LoginInputs "" "" false false "eve" "pw" "" true.
Definition idle_user_form : user_inputs := UserInputs "" "" role_user "" false.
Definition add_carol : user_inputs := UserInputs "carol" "pw3" role_user "carol@x.com" true.
Definition submit_ama : main_inputs :=
  MainInputs false false idle_user_form f_ama true now_ex true.
Definition press_logout : main_inputs :=
  MainInputs true true add_carol f_ama true now_ex true.

(** * Properties *)

(** ** SHA-256: the constants and test vectors (FIPS 180-4 examples and
       the seeded password) *)

Example K256_ends :
  length K256 = 64%nat /\ hd 0 K256 = 0x428a2f98 /\ last K256 = Some 0xc67178f2.
Proof. repeat split. Qed.

Example H256_init_ends : ra H256_init = 0x6a09e667 /\ rh H256_init = 0x5be0cd19.
Proof. split; reflexivity. Qed.

Example sha_abc :
  hash_password "abc"
  = "ba7816bf8f01cfea414140de5dae2223b00361a396177a9cb410ff61f20015ad".
Proof. vm_compute. reflexivity. Qed.

Example sha_empty :
  hash_password ""
  = "e3b0c44298fc1c149afbf4c8996fb92427ae41e4649b934ca495991b7852b855".
Proof. vm_compute. reflexivity. Qed.

Example sha_two_blocks :
  hash_password "abcdbcdecdefdefgefghfghighijhijkijkljklmklmnlmnomnopnopq"
  = "248d6a61d20638b8e5c026930c3e6039a33ce45964ff2167f6ecedd419db06c1".
Proof. vm_compute. reflexivity. Qed.

Example sha_admin123 :
  hash_password "admin123"
  = "240be518fabd2724ddb6f04eeb1da5967448d7e831c08c8fa822809f74c720a9".
Proof. vm_compute. reflexivity. Qed.

(** A password with letters outside ASCII and punctuation: the digest is
    taken over its UTF-8 bytes. *)
Example sha_unicode :
  hash_password "Ɔdɔ ✓ pa$$, wörd!"
  = "4809d366d301a8cf5551d60927b625b88176a7fd6a2d6e4b27302554c7a36af9".
Proof. vm_compute. reflexivity. Qed.

(** A message whose padding spills into a third block. *)
Example sha_three_blocks :
  hash_password (string_of_list_ascii (repeat "a"%char 119))
  = "31eba51c313a5c08226adf18d4a359cfdfd8d2e816b13f4af952f7ea6584dcfb".
Proof. vm_compute. reflexivity. Qed.

(** ** The digest is 64 lowercase hexadecimal digits *)

Lemma hex_digit_lower (n : Z) : lower_hex (hex_digit n).
Proof.
  unfold lower_hex, hex_digit. apply nth_In.
  change 0xF with (Z.ones 4). rewrite Z.land_ones by lia.
  pose proof (Z.mod_pos_bound n (2 ^ 4) ltac:(lia)) as Hb.
  change (length (list_ascii_of_string "0123456789abcdef")) with 16%nat.
  change (2 ^ 4) with 16 in *. lia.
Qed.

Lemma hex_word_lower (x : Z) : Forall lower_hex (hex_word x).
Proof.
  unfold hex_word. apply Forall_forall. intros c Hc.
  apply list_elem_of_In, in_map_iff in Hc. destruct Hc as (i & <- & _).
  apply hex_digit_lower.
Qed.

Lemma hex_word_length (x : Z) : length (hex_word x) = 8%nat.
Proof. reflexivity. Qed.

Lemma string_of_list_ascii_length (l : list ascii) :
  String.length (string_of_list_ascii l) = length l.
Proof. induction l as [|c l IH]; simpl; congruence. Qed.

Lemma hexdigest_length (H : regs) : String.length (hexdigest H) = 64%nat.
Proof. unfold hexdigest. rewrite string_of_list_ascii_length. reflexivity. Qed.

Lemma hexdigest_lower (H : regs) :
  Forall lower_hex (list_ascii_of_string (hexdigest H)).
Proof.
  unfold hexdigest. rewrite list_ascii_of_string_of_list_ascii.
  apply Forall_concat, Forall_forall. intros l Hl.
  apply list_elem_of_In, in_map_iff in Hl. destruct Hl as (x & <- & _).
  apply hex_word_lower.
Qed.

(** ** Reading a credential record *)

Lemma credentials_password h r e :
  getitem (credentials h r e) "password" = Returns (PStr h).
Proof. reflexivity. Qed.

Lemma credentials_role h r e :
  getitem (credentials h r e) "role" = Returns (PStr r).
Proof. reflexivity. Qed.

Lemma credentials_email h r e :
  getitem (credentials h r e) "email" = Returns (PStr e).
Proof. reflexivity. Qed.

Lemma str_eq_refl (s : string) : str_eq s (PStr s) = true.
Proof. simpl. apply String.eqb_refl. Qed.

Lemma verify_password_hash (p : string) :
  verify_password p (PStr (hash_password p)) = true.
Proof. apply str_eq_refl. Qed.

Lemma verify_password_iff (p h : string) :
  verify_password p (PStr h) = true <-> hash_password p = h.
Proof. unfold verify_password, str_eq. apply String.eqb_eq. Qed.

(** ** The operations on a store that holds a JSON object *)

Ltac run_io :=
  unfold add_user, authenticate, get_users, initialize_users, try_except,
    bind, lift, ret, json_load_users, json_dump_users, contains, setitem.

Lemma add_user_present (d : gmap string pyobj) w username password role email :
  users_file w = Some (Doc (PDict d)) ->
  is_Some (d !! username) ->
  add_user username password role email w = (Returns username_exists, w).
Proof.
  intros Hfile Hin. run_io. rewrite Hfile.
  rewrite bool_decide_eq_true_2 by done. reflexivity.
Qed.

Lemma add_user_fresh (d : gmap string pyobj) w username password role email :
  users_file w = Some (Doc (PDict d)) ->
  d !! username = None ->
  disk w = Healthy ->
  add_user username password role email w
  = (Returns user_created,
     set_users_file
       (Some (Doc (PDict (<[username := credentials (hash_password password) role email]> d))))
       w).
Proof.
  intros Hfile Hnew Hdisk. run_io. rewrite Hfile.
  rewrite bool_decide_eq_false_2 by (rewrite Hnew; apply is_Some_None).
  rewrite Hdisk. reflexivity.
Qed.

(** A successful [add_user] found a JSON object without the username and
    left it with the new record. *)
Lemma add_user_success_inv w w' username password role email msg :
  add_user username password role email w = (Returns (true, msg), w') ->
  exists d : gmap string pyobj,
    users_file w = Some (Doc (PDict d)) /\ d !! username = None /\
    users_file w'
    = Some (Doc (PDict (<[username := credentials (hash_password password) role email]> d))).
Proof.
  run_io. intros H.
  destruct (users_file w) as [[| |j]|] eqn:Hfile; try discriminate.
  destruct j; try discriminate.
  - destruct (index 0 username _); simpl in H; discriminate.
  - destruct (existsb _ _); simpl in H; discriminate.
  - destruct (d !! username) eqn:Hd.
    + rewrite bool_decide_eq_true_2 in H by done. discriminate.
    + rewrite bool_decide_eq_false_2 in H by apply is_Some_None.
      destruct (disk w); inversion H; subst. exists d. auto.
Qed.

Lemma authenticate_object (d : gmap string pyobj) w username password :
  users_file w = Some (Doc (PDict d)) ->
  authenticate username password w
  = match d !! username with
    | None => (Returns invalid_credentials, w)
    | Some entry =>
        match getitem entry "password" with
        | Raises e => (Returns (false, ErrText "Authentication error: " e), w)
        | Returns hashed =>
            if verify_password password hashed then
              match getitem entry "role" with
              | Raises e => (Returns (false, ErrText "Authentication error: " e), w)
              | Returns r => (Returns (true, Obj r), w)
              end
            else (Returns invalid_credentials, w)
        end
    end.
Proof.
  intros Hfile. run_io. rewrite Hfile.
  destruct (d !! username) as [entry|] eqn:Hd.
  - rewrite bool_decide_eq_true_2 by done. unfold getitem at 1. rewrite Hd.
    destruct (getitem entry "password") as [hashed|e]; [|reflexivity].
    destruct (verify_password password hashed); [|reflexivity].
    unfold getitem at 1. rewrite Hd.
    destruct (getitem entry "role"); reflexivity.
  - rewrite bool_decide_eq_false_2 by apply is_Some_None. reflexivity.
Qed.

Lemma authenticate_store (m : gmap string user) w username password :
  users_file w = Some (Doc (users_obj m)) ->
  authenticate username password w
  = (Returns
       match m !! username with
       | Some u =>
           if String.eqb (hash_password password) (user_password u)
           then (true, Obj (PStr (user_role u)))
           else invalid_credentials
       | None => invalid_credentials
       end, w).
Proof.
  intros Hfile. rewrite (authenticate_object _ _ _ _ Hfile).
  rewrite lookup_fmap. destruct (m !! username) as [u|]; [|reflexivity].
  simpl fmap. unfold user_obj. rewrite credentials_password.
  unfold verify_password, str_eq.
  destruct (String.eqb _ _); [|reflexivity].
  rewrite credentials_role. reflexivity.
Qed.

Lemma authenticate_after_add_user w w' username password role email msg :
  add_user username password role email w = (Returns (true, msg), w') ->
  authenticate username password w' = (Returns (true, Obj (PStr role)), w').
Proof.
  intros H. apply add_user_success_inv in H as (d & _ & _ & Hfile').
  rewrite (authenticate_object _ _ _ _ Hfile'), lookup_insert_eq.
  rewrite credentials_password, verify_password_hash, credentials_role.
  reflexivity.
Qed.

(** Later [add_user] calls on a healthy disk keep every record already in
    the store, so an added user keeps authenticating. *)
Lemma add_user_preserves_record (d : gmap string pyobj) w known entry
    username password role email :
  users_file w = Some (Doc (PDict d)) ->
  d !! known = Some entry ->
  disk w = Healthy ->
  exists d', users_file (add_user username password role email w).2
             = Some (Doc (PDict d'))
             /\ d' !! known = Some entry
             /\ disk (add_user username password role email w).2 = Healthy.
Proof.
  intros Hfile Hknown Hdisk. destruct (d !! username) as [v|] eqn:Hu.
  - rewrite (add_user_present d w _ _ _ _ Hfile) by eauto. exists d. auto.
  - rewrite (add_user_fresh d w _ _ _ _ Hfile Hu Hdisk).
    eexists. split; [reflexivity|]. split; [|exact Hdisk].
    rewrite lookup_insert_ne; [exact Hknown | congruence].
Qed.

(** The credential stores are closed under [add_user]: what it writes back
    is again a store of records.  (A write that fails after truncating the
    file is the one way to lose the store.) *)
Lemma add_user_keeps_store (m : gmap string user) w username password role email :
  users_file w = Some (Doc (users_obj m)) ->
  disk w <> WriteFails ->
  exists m', users_file (add_user username password role email w).2
             = Some (Doc (users_obj m'))
             /\ (forall known u, m !! known = Some u -> m' !! known = Some u).
Proof.
  intros Hfile Hdisk. destruct (m !! username) as [u|] eqn:Hu.
  - rewrite (add_user_present _ w _ _ _ _ Hfile)
      by (rewrite lookup_fmap, Hu; eauto).
    exists m. auto.
  - destruct (disk w) eqn:Hd; [| |congruence].
    + rewrite (add_user_fresh _ w _ _ _ _ Hfile) by (rewrite ?lookup_fmap, ?Hu; auto).
      exists (<[username := User (hash_password password) role email]> m).
      split; [unfold users_obj; now rewrite fmap_insert|].
      intros known u Hk. rewrite lookup_insert_ne; [exact Hk | congruence].
    + exists m. split; [|auto]. unfold users_obj in *. run_io. rewrite Hfile.
      rewrite bool_decide_eq_false_2
        by (rewrite lookup_fmap, Hu; apply is_Some_None).
      rewrite Hd. exact Hfile.
Qed.

(** ** The operations on a file that holds other JSON *)

Example authenticate_on_list :
  authenticate "bob" "pw1" (World (Some (Doc (PList [PStr "ama"]))) None Healthy)
  = (Returns invalid_credentials, World (Some (Doc (PList [PStr "ama"]))) None Healthy).
Proof. reflexivity. Qed.

Example authenticate_on_number :
  authenticate "bob" "pw1" (World (Some (Doc (PInt 3))) None Healthy)
  = (Returns (false, ErrText "Authentication error: " TypeError),
     World (Some (Doc (PInt 3))) None Healthy).
Proof. reflexivity. Qed.

Example authenticate_record_without_password :
  authenticate "bob" "pw1"
    (World (Some (Doc (PDict {["bob" := PDict {["role" := PStr "user"]}]}))) None Healthy)
  = (Returns (false, ErrText "Authentication error: " (KeyError "password")),
     World (Some (Doc (PDict {["bob" := PDict {["role" := PStr "user"]}]}))) None Healthy).
Proof. vm_compute. reflexivity. Qed.

Example add_user_write_fails :
  add_user "bob" "pw1" "user" "" (World (Some (Doc (PDict ∅))) None WriteFails)
  = (Returns (false, ErrText "Error creating user: " OSError),
     World (Some Garbage) None WriteFails).
Proof. vm_compute. reflexivity. Qed.

(** ** The scenario of the specification, run from the seeded store *)

Example scenario_bob :
  exists w1,
    add_user "bob" "pw1" "user" "bob@x.com" w_admin
    = (Returns (true, Obj (PStr "User created successfully")), w1)
    /\ users_file w1 = Some (Doc (users_obj m_bob))
    /\ authenticate "bob" "pw1" w1 = (Returns (true, Obj (PStr "user")), w1)
    /\ authenticate "bob" "wrong" w1
       = (Returns (false, Obj (PStr "Invalid credentials")), w1)
    /\ add_user "bob" "pw2" "admin" "" w1
       = (Returns (false, Obj (PStr "Username already exists")), w1).
Proof.
  exists (add_user "bob" "pw1" "user" "bob@x.com" w_admin).2.
  repeat split; vm_compute; reflexivity.
Qed.

(** ** Claims about the credential store and the authenticator *)

(** C1. On a credential store [m], [authenticate] returns [(True, role)] with
    the stored role exactly when the username is present and the hash of the
    password equals the stored digest, and [(False, "Invalid credentials")]
    in every other case; and after a successful [add_user] with password
    [p], [authenticate] with [p] returns the role given to [add_user]. *)
Theorem authenticate_correct (m : gmap string user) (w : world)
    (username password : string) :
  users_file w = Some (Doc (users_obj m)) ->
  (forall u, m !! username = Some u ->
             hash_password password = user_password u ->
     authenticate username password w
     = (Returns (true, Obj (PStr (user_role u))), w))
  /\ ((forall u, m !! username = Some u ->
                 hash_password password <> user_password u) ->
     authenticate username password w
     = (Returns (false, Obj (PStr "Invalid credentials")), w))
  /\ ((exists v, authenticate username password w = (Returns (true, v), w))
      <-> (exists u, m !! username = Some u
                     /\ hash_password password = user_password u))
  /\ (forall role email w' msg,
        add_user username password role email w = (Returns (true, msg), w') ->
        authenticate username password w'
        = (Returns (true, Obj (PStr role)), w')).
Proof.
  intros Hfile. rewrite (authenticate_store m w username password Hfile).
  repeat split.
  - intros u Hu Hhash. rewrite Hu. apply String.eqb_eq in Hhash.
    rewrite Hhash. reflexivity.
  - intros Hno. destruct (m !! username) as [u|]; [|reflexivity].
    specialize (Hno u eq_refl). apply String.eqb_neq in Hno.
    rewrite Hno. reflexivity.
  - intros [v Hv]. destruct (m !! username) as [u|]; [|discriminate].
    destruct (String.eqb _ _) eqn:Heq; [|discriminate].
    exists u. split; [reflexivity|]. apply String.eqb_eq, Heq.
  - intros (u & Hu & Hhash). rewrite Hu. apply String.eqb_eq in Hhash.
    rewrite Hhash. eauto.
  - intros role email w' msg. apply authenticate_after_add_user.
Qed.

Lemma authenticate_correct_witness :
  users_file w_bob = Some (Doc (users_obj m_bob))
  /\ authenticate "bob" "pw1" w_bob = (Returns (true, Obj (PStr "user")), w_bob)
  /\ authenticate "bob" "wrong" w_bob
     = (Returns (false, Obj (PStr "Invalid credentials")), w_bob).
Proof.
  split; [reflexivity|]. split.
  - apply (proj1 (authenticate_correct m_bob w_bob "bob" "pw1" eq_refl)
             (User (hash_password "pw1") "user" "bob@x.com"));
      vm_compute; reflexivity.
  - apply (proj1 (proj2 (authenticate_correct m_bob w_bob "bob" "wrong" eq_refl))).
    intros u Hu. vm_compute in Hu. injection Hu as <-. vm_compute. discriminate.
Defined.

(** C2. When the username is already in the store, [add_user] returns
    [(False, "Username already exists")] and leaves the world, so the whole
    store, as it was; when it is not, [add_user] writes back the mapping
    with the record [{password: hash(p), role, email}] added.  A second
    [add_user] for a username just added is therefore rejected. *)
Theorem add_user_duplicate_rejected (d : gmap string pyobj) (w : world)
    (username password role email : string) :
  users_file w = Some (Doc (PDict d)) ->
  (is_Some (d !! username) ->
     add_user username password role email w
     = (Returns (false, Obj (PStr "Username already exists")), w))
  /\ (d !! username = None -> disk w = Healthy ->
     add_user username password role email w
     = (Returns (true, Obj (PStr "User created successfully")),
        set_users_file
          (Some (Doc (PDict (<[username :=
                                 credentials (hash_password password) role email]> d))))
          w))
  /\ (forall w1 msg password2 role2 email2,
        add_user username password role email w = (Returns (true, msg), w1) ->
        add_user username password2 role2 email2 w1
        = (Returns (false, Obj (PStr "Username already exists")), w1)).
Proof.
  intros Hfile. split; [|split].
  - intros Hin. exact (add_user_present d w _ _ _ _ Hfile Hin).
  - intros Hnew Hdisk. exact (add_user_fresh d w _ _ _ _ Hfile Hnew Hdisk).
  - intros w1 msg password2 role2 email2 Hadd.
    apply add_user_success_inv in Hadd as (d0 & _ & _ & Hfile1).
    apply (add_user_present _ w1 _ _ _ _ Hfile1).
    rewrite lookup_insert_eq. eauto.
Qed.

Lemma add_user_duplicate_rejected_witness :
  users_file w_bob = Some (Doc (PDict (user_obj <$> m_bob)))
  /\ add_user "bob" "pw2" "admin" "" w_bob
     = (Returns (false, Obj (PStr "Username already exists")), w_bob).
Proof.
  split; [reflexivity|].
  apply (proj1 (add_user_duplicate_rejected (user_obj <$> m_bob) w_bob
                  "bob" "pw2" "admin" "" eq_refl)).
  vm_compute. eauto.
Defined.

(** C3. [hash_password] is a function of the password alone: two calls on
    the same password give the same text, 64 lowercase hexadecimal digits;
    and [verify_password p (hash_password p)] holds for every password,
    whatever bytes its UTF-8 encoding has (so also for the non-empty ones). *)
Theorem hash_password_deterministic (p : string) :
  (let first_call := hash_password p in
   let second_call := hash_password p in
   first_call = second_call)
  /\ String.length (hash_password p) = 64%nat
  /\ Forall lower_hex (list_ascii_of_string (hash_password p))
  /\ verify_password p (PStr (hash_password p)) = true.
Proof.
  split; [reflexivity|]. split; [apply hexdigest_length|].
  split; [apply hexdigest_lower|apply verify_password_hash].
Qed.

(** C4. On a world without [users.json] (and a disk that takes the write),
    [initialize_users] creates the file with exactly one record, username
    admin with role admin and the hash of the default password, after which
    [authenticate "admin" "admin123"] returns [(True, "admin")]; on a world
    where the file exists it changes nothing and does not raise. *)
Theorem initialize_users_seeds_admin (w : world) :
  (users_file w = None -> disk w = Healthy ->
     exists w',
       initialize_users w = (Returns tt, w')
       /\ users_file w'
          = Some (Doc (users_obj
               {["admin" := User (hash_password "admin123") "admin"
                                 "admin@yoka.knust.edu.gh"]}))
       /\ data_file w' = data_file w
       /\ authenticate "admin" "admin123" w'
          = (Returns (true, Obj (PStr "admin")), w'))
  /\ (forall f, users_file w = Some f -> initialize_users w = (Returns tt, w)).
Proof.
  split.
  - intros Hnone Hdisk. eexists. split; [|split; [|split]].
    + unfold initialize_users, json_dump_users. rewrite Hnone, Hdisk. reflexivity.
    + unfold users_obj. rewrite map_fmap_singleton. reflexivity.
    + reflexivity.
    + erewrite authenticate_object by reflexivity.
      rewrite lookup_singleton_eq, credentials_password, verify_password_hash,
        credentials_role. reflexivity.
  - intros f Hf. unfold initialize_users. rewrite Hf. reflexivity.
Qed.

Lemma initialize_users_seeds_admin_witness :
  (exists w',
     initialize_users w_fresh = (Returns tt, w')
     /\ authenticate "admin" "admin123" w' = (Returns (true, Obj (PStr "admin")), w'))
  /\ initialize_users w_bob = (Returns tt, w_bob).
Proof.
  split.
  - destruct (proj1 (initialize_users_seeds_admin w_fresh) eq_refl eq_refl)
      as (w' & Hrun & _ & _ & Hauth).
    exists w'. split; assumption.
  - exact (proj2 (initialize_users_seeds_admin w_bob) _ eq_refl).
Defined.

(** C5. On a credential store, an unknown username and a known username
    with a password that does not verify get the same answer from
    [authenticate], [(False, "Invalid credentials")], and leave the same
    world: the answer does not tell the two causes apart. *)
Theorem authenticate_failures_indistinguishable (m : gmap string user) (w : world)
    (unknown password1 known password2 : string) (u : user) :
  users_file w = Some (Doc (users_obj m)) ->
  m !! unknown = None ->
  m !! known = Some u ->
  verify_password password2 (PStr (user_password u)) = false ->
  authenticate unknown password1 w = authenticate known password2 w
  /\ authenticate unknown password1 w
     = (Returns (false, Obj (PStr "Invalid credentials")), w).
Proof.
  intros Hfile Hunknown Hknown Hwrong.
  rewrite !(authenticate_store m w _ _ Hfile), Hunknown, Hknown.
  unfold verify_password, str_eq in Hwrong. rewrite Hwrong. split; reflexivity.
Qed.

Lemma authenticate_failures_indistinguishable_witness :
  authenticate "mallory" "pw1" w_bob = authenticate "bob" "wrong" w_bob
  /\ authenticate "mallory" "pw1" w_bob
     = (Returns (false, Obj (PStr "Invalid credentials")), w_bob).
Proof.
  apply (authenticate_failures_indistinguishable m_bob w_bob "mallory" "pw1"
           "bob" "wrong" (User (hash_password "pw1") "user" "bob@x.com"));
    vm_compute; reflexivity.
Defined.

(** C9. [add_user] checks nothing about its arguments: whatever the
    username (the empty one too), the password, the role and the email are,
    if the username is not yet in the store the call succeeds, and the
    store then holds for it the record with the hash of the password and
    the role and the email as they were given; the other records stay. *)
Theorem add_user_no_validation (d : gmap string pyobj) (w : world)
    (username password role email : string) :
  users_file w = Some (Doc (PDict d)) ->
  d !! username = None ->
  disk w = Healthy ->
  exists w' d',
    add_user username password role email w
    = (Returns (true, Obj (PStr "User created successfully")), w')
    /\ users_file w' = Some (Doc (PDict d'))
    /\ d' !! username
       = Some (PDict (<["password" := PStr (hash_password password)]>
                     (<["role" := PStr role]> (<["email" := PStr email]> ∅))))
    /\ (forall other, other <> username -> d' !! other = d !! other)
    /\ get_users w' = (Returns (PDict d'), w').
Proof.
  intros Hfile Hnew Hdisk.
  eexists _, _. split; [exact (add_user_fresh d w _ _ _ _ Hfile Hnew Hdisk)|].
  split; [reflexivity|]. split; [apply lookup_insert_eq|]. split.
  - intros other Hother. apply lookup_insert_ne. congruence.
  - reflexivity.
Qed.

Lemma add_user_no_validation_witness :
  exists w' d',
    add_user "" "" "superuser" "not an address" w_admin
    = (Returns (true, Obj (PStr "User created successfully")), w')
    /\ users_file w' = Some (Doc (PDict d'))
    /\ d' !! ""
       = Some (PDict (<["password" := PStr (hash_password "")]>
                     (<["role" := PStr "superuser"]>
                     (<["email" := PStr "not an address"]> ∅)))).
Proof.
  destruct (add_user_no_validation
              (user_obj <$> {["admin" := admin_record]}) w_admin
              "" "" "superuser" "not an address" eq_refl eq_refl eq_refl)
    as (w' & d' & Hadd & Hfile & Hrec & _).
  exists w', d'. repeat split; assumption.
Defined.

(** C10. The empty password also verifies against its own hash, and a user
    added with the empty password authenticates with the empty password. *)
Theorem empty_password_roundtrip (d : gmap string pyobj) (w : world)
    (username role email : string) :
  users_file w = Some (Doc (PDict d)) ->
  d !! username = None ->
  disk w = Healthy ->
  verify_password "" (PStr (hash_password "")) = true
  /\ exists w',
       add_user username "" role email w
       = (Returns (true, Obj (PStr "User created successfully")), w')
       /\ authenticate username "" w' = (Returns (true, Obj (PStr role)), w').
Proof.
  intros Hfile Hnew Hdisk. split; [apply verify_password_hash|].
  eexists. split; [exact (add_user_fresh d w _ _ _ _ Hfile Hnew Hdisk)|].
  eapply authenticate_after_add_user.
  exact (add_user_fresh d w _ _ _ _ Hfile Hnew Hdisk).
Qed.

Lemma empty_password_roundtrip_witness :
  verify_password "" (PStr (hash_password "")) = true
  /\ exists w',
       add_user "kofi" "" "user" "" w_admin
       = (Returns (true, Obj (PStr "User created successfully")), w')
       /\ authenticate "kofi" "" w' = (Returns (true, Obj (PStr "user")), w').
Proof.
  apply (empty_password_roundtrip (user_obj <$> {["admin" := admin_record]})
           w_admin "kofi" "user" ""); reflexivity.
Defined.

(** ** Faults under I/O failure *)

Lemma try_except_never_raises {A} (body : io A) (handler : pyexn -> io A) :
  (forall e, never_raises (handler e)) -> never_raises (try_except body handler).
Proof.
  intros Hh w. unfold try_except.
  destruct (body w) as [[a|e] w']; [eauto|apply Hh].
Qed.

Lemma add_user_never_raises username password role email :
  never_raises (add_user username password role email).
Proof. apply try_except_never_raises. intros e w. unfold ret. eauto. Qed.

Lemma authenticate_never_raises username password :
  never_raises (authenticate username password).
Proof. apply try_except_never_raises. intros e w. unfold ret. eauto. Qed.

Lemma get_users_never_raises : never_raises get_users.
Proof. apply try_except_never_raises. intros e w. unfold ret. eauto. Qed.

(** [initialize_users] has no handler: an absent file that cannot be
    created makes it raise. *)
Lemma initialize_users_propagates (w : world) :
  users_file w = None -> disk w <> Healthy ->
  exists e w', initialize_users w = (Raises e, w').
Proof.
  intros Hnone Hdisk. unfold initialize_users, json_dump_users.
  rewrite Hnone. simpl. destruct (disk w); [congruence|eauto|eauto].
Qed.

(** C8, as stated, fails for [initialize_users]: with no [users.json] and a
    directory that refuses the file, the error reaches the caller. *)
Lemma initialize_users_raises :
  initialize_users w_readonly = (Raises PermissionError, w_readonly)
  /\ ~ never_raises initialize_users.
Proof.
  split; [reflexivity|]. intros H.
  destruct (H w_readonly) as (a & w' & Hrun). discriminate Hrun.
Qed.

(** C8, amended. [add_user], [authenticate] and [get_users] never raise.
    When the credential file cannot be read (absent, unreadable, not JSON)
    [add_user] and [authenticate] return [False] with a message built from
    the error and [get_users] returns the empty mapping; when the write of
    [add_user] fails it returns [False] with such a message too.
    [initialize_users] does not raise when the file exists or the disk takes
    the write. *)
Theorem core_operations_under_io_failure (w : world)
    (username password role email : string) :
  never_raises (add_user username password role email)
  /\ never_raises (authenticate username password)
  /\ never_raises get_users
  /\ (forall e, json_load_users w = (Raises e, w) ->
        add_user username password role email w
        = (Returns (false, ErrText "Error creating user: " e), w)
        /\ authenticate username password w
           = (Returns (false, ErrText "Authentication error: " e), w)
        /\ get_users w = (Returns (PDict ∅), w))
  /\ (forall d : gmap string pyobj,
        users_file w = Some (Doc (PDict d)) -> d !! username = None ->
        disk w <> Healthy ->
        exists e w',
          add_user username password role email w
          = (Returns (false, ErrText "Error creating user: " e), w'))
  /\ (users_file w <> None \/ disk w = Healthy ->
        exists w', initialize_users w = (Returns tt, w')).
Proof.
  split; [apply add_user_never_raises|].
  split; [apply authenticate_never_raises|].
  split; [apply get_users_never_raises|].
  split; [|split].
  - intros e He. unfold add_user, authenticate, get_users, try_except, bind.
    rewrite He. repeat split; reflexivity.
  - intros d Hfile Hnew Hdisk. run_io. rewrite Hfile.
    rewrite bool_decide_eq_false_2 by (rewrite Hnew; apply is_Some_None).
    destruct (disk w); [congruence|eauto|eauto].
  - intros H. unfold initialize_users, json_dump_users.
    destruct (users_file w) as [f|]; simpl; [eauto|].
    destruct H as [H|H]; [congruence|]. rewrite H. eauto.
Qed.

Lemma core_operations_under_io_failure_witness :
  add_user "bob" "pw1" "user" "bob@x.com" w_readonly
  = (Returns (false, ErrText "Error creating user: " FileNotFoundError), w_readonly)
  /\ authenticate "bob" "pw1" w_readonly
     = (Returns (false, ErrText "Authentication error: " FileNotFoundError), w_readonly)
  /\ get_users w_readonly = (Returns (PDict ∅), w_readonly).
Proof.
  apply (proj1 (proj2 (proj2 (proj2
           (core_operations_under_io_failure w_readonly "bob" "pw1" "user" "bob@x.com"))))).
  reflexivity.
Defined.

(** ** Required fields *)

Lemma missing_fields_spec (f : form) (name : string) :
  In name (missing_fields f)
  <-> exists v, In (name, v) (required_fields f) /\ truthy v = false.
Proof.
  unfold missing_fields. rewrite in_map_iff. split.
  - intros ([n v] & <- & Hin). apply list_elem_of_In, list_elem_of_filter in Hin.
    destruct Hin as [Hv Hin]. exists v. split; [apply list_elem_of_In, Hin|].
    simpl in Hv. destruct (truthy v); [contradiction|reflexivity].
  - intros (v & Hin & Hv). exists (name, v). split; [reflexivity|].
    apply list_elem_of_In, list_elem_of_filter. split; [|apply list_elem_of_In, Hin].
    simpl. rewrite Hv. exact I.
Qed.

Lemma missing_fields_intro (f : form) (name : string) (v : value) :
  In (name, v) (required_fields f) -> truthy v = false -> missing_fields f <> [].
Proof.
  intros Hin Hv Hnil.
  assert (In name (missing_fields f)) as H by (apply missing_fields_spec; eauto).
  rewrite Hnil in H. destruct H.
Qed.

Lemma truthy_text (s : string) : truthy (VStr s) = false <-> s = "".
Proof.
  simpl. rewrite negb_false_iff. apply String.eqb_eq.
Qed.

Lemma submit_incomplete (f : form) now username w :
  missing_fields f <> [] ->
  submit f now username w
  = (Returns [StError (Obj (PStr ("Please fill in the following required fields: "
                                  ++ String.concat ", " (missing_fields f))))], w).
Proof.
  intros Hne. unfold submit. destruct (missing_fields f); [congruence|reflexivity].
Qed.

(** C7. When a required field is empty (for the texts: the empty string; the
    age, a number: zero; the date of birth is a date and never empty),
    [submit] shows the error that lists the required fields that are empty,
    exactly those and in the order of the form, writes nothing, and
    [load_data] afterwards returns what it returned before. *)
Theorem submit_rejects_missing_fields (f : form) (now : datetime)
    (username : string) (w : world) :
  official_name f = "" \/ age f = 0 \/ phone_numbers f = "" \/ email f = ""
    \/ school_name f = "" \/ program f = "" \/ current_class f = ""
    \/ church_branch f = "" \/ branch_pastor f = "" ->
  submit f now username w
  = (Returns [StError (Obj (PStr ("Please fill in the following required fields: "
                                  ++ String.concat ", " (missing_fields f))))], w)
  /\ missing_fields f <> []
  /\ (forall name,
        In name (missing_fields f)
        <-> exists v, In (name, v) (required_fields f) /\ truthy v = false)
  /\ data_file (submit f now username w).2 = data_file w
  /\ load_data (submit f now username w).2 = load_data w.
Proof.
  intros Hempty.
  assert (Hne : missing_fields f <> []).
  { destruct Hempty as [H|[H|[H|[H|[H|[H|[H|[H|H]]]]]]]].
    - apply (missing_fields_intro f "Official Name" (VStr (official_name f)));
        [simpl; tauto | simpl; rewrite H; reflexivity].
    - apply (missing_fields_intro f "Age" (VInt (age f)));
        [simpl; tauto | simpl; rewrite H; reflexivity].
    - apply (missing_fields_intro f "Phone Numbers" (VStr (phone_numbers f)));
        [simpl; tauto | simpl; rewrite H; reflexivity].
    - apply (missing_fields_intro f "Email" (VStr (email f)));
        [simpl; tauto | simpl; rewrite H; reflexivity].
    - apply (missing_fields_intro f "School Name" (VStr (school_name f)));
        [simpl; tauto | simpl; rewrite H; reflexivity].
    - apply (missing_fields_intro f "Program" (VStr (program f)));
        [simpl; tauto | simpl; rewrite H; reflexivity].
    - apply (missing_fields_intro f "Current Class" (VStr (current_class f)));
        [simpl; tauto | simpl; rewrite H; reflexivity].
    - apply (missing_fields_intro f "Church Branch" (VStr (church_branch f)));
        [simpl; tauto | simpl; rewrite H; reflexivity].
    - apply (missing_fields_intro f "Branch Pastor" (VStr (branch_pastor f)));
        [simpl; tauto | simpl; rewrite H; reflexivity]. }
  rewrite (submit_incomplete f now username w Hne).
  split; [reflexivity|]. split; [exact Hne|].
  split; [apply missing_fields_spec|]. split; reflexivity.
Qed.

Lemma submit_rejects_missing_fields_witness :
  submit f_no_email now_ex "admin" w_started
  = (Returns [StError (Obj (PStr
       "Please fill in the following required fields: Email"))], w_started)
  /\ load_data (submit f_no_email now_ex "admin" w_started).2 = load_data w_started.
Proof.
  destruct (submit_rejects_missing_fields f_no_email now_ex "admin" w_started)
    as (Hrun & _ & _ & _ & Hload).
  - right. right. right. left. reflexivity.
  - split; [exact Hrun | exact Hload].
Defined.

(** Two fields left empty are listed in the order of the form. *)
Example submit_lists_missing_in_order :
  missing_fields
    (Form "" (2003, 5, 17) 21 "0241234567" "" "" No "" "" "" No "" "" ""
          "" "" No "" "" "" "" "" No "" "" ""
          "KNUST" "Computer Science" "Level 300" "" "" "Ayeduase" "Rev. Osei" "" "")
  = ["Official Name"; "Email"].
Proof. reflexivity. Qed.

(** A complete form is appended to the store. *)
Example submit_complete_form :
  exists w',
    submit f_ama now_ex "admin" w_started = (Returns [StMarkdown success_html], w')
    /\ data_file w' = Some (store_text [row_texts r_ama]).
Proof.
  exists (submit f_ama now_ex "admin" w_started).2.
  split; vm_compute; reflexivity.
Qed.

(** ** The record store: what the tokenizer reads back from what the
       writer wrote *)


Lemma run_cons p c cs : run p (c :: cs) = run (tokenize_byte p c) cs.
Proof. reflexivity. Qed.



Lemma string_app_nil_r (s : string) : s ++ "" = s.
Proof.
  induction s as [|c s IH]; [reflexivity|].
  change (String c (s ++ "") = String c s). f_equal. exact IH.
Qed.


















(** ** The bytes of the file the writer makes *)


























(** ** The conversion of the columns *)













Lemma cell_of_token_spec (token : string) :
  (cell_of_token token = NaN <-> In token na_values)
  /\ (~ In token na_values -> cell_of_token token = Tok token).
Proof.
  unfold cell_of_token, is_na.
  destruct (existsb (String.eqb token) na_values) eqn:Hna.
  - apply existsb_exists in Hna as (x & Hin & Heq). apply String.eqb_eq in Heq.
    subst x. split; [tauto|contradiction].
  - assert (~ In token na_values) as Hnot.
    { intros Hin. apply not_true_iff_false in Hna. apply Hna.
      apply existsb_exists. exists token. split; [exact Hin|apply String.eqb_refl]. }
    split; [|reflexivity]. split; [discriminate|contradiction].
Qed.

(** The store [YokaInformationSystem()] creates holds the header alone. *)
Lemma started_store_is_header (w : world) :
  data_file w = None ->
  disk w = Healthy ->
  exists w', yoka_system w = (Returns tt, w')
             /\ data_file w' = Some (store_text [])
             /\ disk w' = Healthy.
Proof.
  intros Hfile Hdisk. unfold yoka_system, bind, initialize_users, json_dump_users.
  destruct (users_file w) as [f|] eqn:Hu; cbn [exists_file negb]; rewrite ?Hdisk;
    unfold initialize_data, write_data; cbn [data_file set_users_file disk];
    rewrite Hfile, Hdisk; cbn [exists_file negb]; eexists;
    (split; [reflexivity|]); split; try assumption;
    cbn [data_file set_data_file]; unfold store_text; cbn [csv_text];
    now rewrite string_app_nil_r.
Qed.

(** ** Reading the table *)













(** A record of one field of blanks is skipped as a blank line. *)
Example blank_record_is_skipped :
  tokenize (csv_row ["x"; "y"] ++ csv_row [" "]) = Some (Returns [["x"; "y"]]).
Proof. vm_compute. reflexivity. Qed.

(** A file whose bytes are not UTF-8 is not loaded: the error is shown and
    the table is empty. *)
Example invalid_utf8_is_an_error :
  load_data (World None (Some (store_text [] ++ String (ascii_of_N 255) (String LF "")))
                   Healthy)
  = Some (empty_frame, [StError (ErrText "Error loading data: " UnicodeDecodeError)]).
Proof. vm_compute. reflexivity. Qed.

(** ** C6: appending a record and loading the store *)


(** The rows loaded before are not always loaded unchanged after an append:
    the column of the father's phone holds digits only and is loaded as
    numbers, until a record with other text in that column is appended;
    then the whole column is loaded as text. *)
Example appending_changes_earlier_rows :
  exists w1 w2 row row',
    save_data r_ama w_started = (Returns tt, w1)
    /\ table_of w1 !! 0%nat = Some row
    /\ row !! 10%nat = Some (Int64 200000000)
    /\ save_data r_unlisted w1 = (Returns tt, w2)
    /\ table_of w2 !! 0%nat = Some row'
    /\ row' !! 10%nat = Some (Tok "0200000000").
Proof.
  exists (save_data r_ama w_started).2,
    (save_data r_unlisted (save_data r_ama w_started).2).2,
    (default [] (table_of (save_data r_ama w_started).2 !! 0%nat)),
    (default [] (table_of (save_data r_unlisted (save_data r_ama w_started).2).2
                 !! 0%nat)).
  split_and!; vm_compute; reflexivity.
Qed.



(** The free text of the example comes back as it was typed, the age as
    the number, the phone number of digits as a number. *)
Example roundtrip_keeps_quoted_text :
  exists w' row,
    save_data r_quoted w_started = (Returns tt, w')
    /\ last (table_of w') = Some row
    /\ nth_error row 6
       = Some (Tok ("singing, " ++ String QUOTE
                      ("football" ++ String QUOTE (String LF "chess"))))
    /\ nth_error row 3 = Some (Int64 21)
    /\ nth_error row 4 = Some (Tok "0241234567, 0207654321")
    /\ nth_error row 10 = Some (Int64 200000000).
Proof.
  exists (save_data r_quoted w_started).2,
    (default [] (last (table_of (save_data r_quoted w_started).2))).
  split_and!; vm_compute; reflexivity.
Qed.

(** * Further properties of the stores *)

(** ** Sequences of registrations *)

Lemma set_users_file_same (w : world) (f : option file) :
  users_file w = f -> set_users_file f w = w.
Proof. destruct w; simpl. intros <-. reflexivity. Qed.

Lemma union_insert_present (d m : gmap string pyobj) (u : string) (c v : pyobj) :
  d !! u = Some v -> d ∪ <[u := c]> m = d ∪ m.
Proof.
  intros Hu. apply map_eq. intros k. rewrite !lookup_union.
  destruct (decide (k = u)) as [->|Hne].
  - rewrite Hu. now destruct (<[u:=c]> m !! u), (m !! u).
  - now rewrite lookup_insert_ne by congruence.
Qed.

Lemma list_to_map_registered (r : registration) (rs : list registration) :
  (list_to_map (registered <$> (r :: rs)) : gmap string pyobj)
  = <[reg_username r := (registered r).2]> (list_to_map (registered <$> rs)).
Proof. reflexivity. Qed.

Lemma add_users_run (rs : list registration) :
  forall (d : gmap string pyobj) (w : world),
    users_file w = Some (Doc (PDict d)) ->
    disk w = Healthy ->
    add_users rs w
    = (Returns (replies (dom d) rs),
       set_users_file (Some (Doc (PDict (d ∪ list_to_map (registered <$> rs))))) w).
Proof.
  induction rs as [|r rs IH]; intros d w Hfile Hdisk.
  - cbn. rewrite (right_id_L ∅ (∪)). now rewrite set_users_file_same.
  - rewrite list_to_map_registered. cbn [add_users replies]. unfold bind.
    destruct (d !! reg_username r) as [v|] eqn:Hu.
    + rewrite (add_user_present d w _ _ _ _ Hfile) by eauto.
      rewrite (IH d w Hfile Hdisk). unfold ret.
      rewrite decide_True by (apply elem_of_dom; eauto).
      rewrite (union_insert_present d _ _ _ v Hu).
      rewrite (subseteq_union_1_L {[reg_username r]} (dom d))
        by (apply singleton_subseteq_l, elem_of_dom; eauto).
      reflexivity.
    + rewrite (add_user_fresh d w _ _ _ _ Hfile Hu Hdisk).
      erewrite IH; [|reflexivity|exact Hdisk].
      unfold ret. rewrite decide_False by (apply not_elem_of_dom; exact Hu).
      rewrite dom_insert_L, <- insert_union_l, (insert_union_r d _ _ _ Hu).
      reflexivity.
Qed.

(** X1. In a sequence of [add_user] calls on a healthy disk the records
    already stored are kept, and a new username gets the record of the
    first call that names it: later calls for it are answered "Username
    already exists" and change nothing. *)
Theorem add_users_first_wins (d : gmap string pyobj) (w : world)
    (rs : list registration) :
  users_file w = Some (Doc (PDict d)) ->
  disk w = Healthy ->
  exists d' : gmap string pyobj,
    add_users rs w
    = (Returns (replies (dom d) rs), set_users_file (Some (Doc (PDict d'))) w)
    /\ (forall u v, d !! u = Some v -> d' !! u = Some v)
    /\ (forall before r after,
          rs = (before ++ r :: after)%list ->
          d !! reg_username r = None ->
          Forall (fun r0 => reg_username r0 <> reg_username r) before ->
          d' !! reg_username r
          = Some (credentials (hash_password (reg_password r))
                              (reg_role r) (reg_email r)))
    /\ (forall u, d' !! u = None
                  <-> d !! u = None /\ Forall (fun r => reg_username r <> u) rs).
Proof.
  intros Hfile Hdisk. eexists. split; [apply (add_users_run rs d w Hfile Hdisk)|].
  split; [|split].
  - intros u v Hu. now apply lookup_union_Some_l.
  - intros before r after -> Hnew Hfirst.
    rewrite lookup_union_r by exact Hnew.
    rewrite fmap_app, list_to_map_app, lookup_union_r.
    + rewrite fmap_cons. cbn [list_to_map foldr]. now rewrite lookup_insert_eq.
    + apply not_elem_of_list_to_map_1. rewrite <- list_fmap_compose.
      intros Hin. apply list_elem_of_fmap in Hin as (r0 & Heq & Hin).
      rewrite Forall_forall in Hfirst. apply (Hfirst r0 Hin). now rewrite Heq.
  - intros u. rewrite lookup_union_None. apply and_iff_compat_l.
    rewrite <- not_elem_of_list_to_map, <- list_fmap_compose, Forall_forall. split.
    + intros Hnot r Hin Heq. apply Hnot, list_elem_of_fmap. exists r. auto.
    + intros Hall Hin. apply list_elem_of_fmap in Hin as (r & Heq & Hin).
      apply (Hall r Hin). now rewrite Heq.
Qed.

Lemma add_users_first_wins_witness :
  exists d' : gmap string pyobj,
    add_users rs_example w_admin
    = (Returns [user_created; username_exists; username_exists],
       set_users_file (Some (Doc (PDict d'))) w_admin)
    /\ d' !! "bob" = Some (credentials (hash_password "pw1") "user" "bob@x.com")
    /\ d' !! "admin" = Some (user_obj admin_record).
Proof.
  destruct (add_users_first_wins (user_obj <$> {["admin" := admin_record]})
              w_admin rs_example eq_refl eq_refl)
    as (d' & Hrun & Hkept & Hfirst & _).
  exists d'. split; [exact Hrun|]. split.
  - apply (Hfirst [] (Registration "bob" "pw1" "user" "bob@x.com")
             [Registration "admin" "letmein" "admin" "";
              Registration "bob" "pw2" "admin" ""]);
      [reflexivity | reflexivity | constructor].
  - apply Hkept. reflexivity.
Defined.

(** X2. A user that [add_user] has added keeps authenticating with the
    password given then, whatever [add_user] calls follow on a healthy
    disk (also calls that name the same user with another password). *)
Theorem registered_user_keeps_authenticating (w w1 : world)
    (username password role email : string) (msg : payload)
    (rs : list registration) :
  add_user username password role email w = (Returns (true, msg), w1) ->
  disk w1 = Healthy ->
  exists answers w2,
    add_users rs w1 = (Returns answers, w2)
    /\ authenticate username password w2 = (Returns (true, Obj (PStr role)), w2).
Proof.
  intros Hadd Hdisk.
  apply add_user_success_inv in Hadd as (d & _ & _ & Hfile1).
  eexists _, _. split; [apply (add_users_run rs _ w1 Hfile1 Hdisk)|].
  erewrite authenticate_object by reflexivity.
  erewrite lookup_union_Some_l by apply lookup_insert_eq.
  rewrite credentials_password, verify_password_hash, credentials_role.
  reflexivity.
Qed.

Lemma registered_user_keeps_authenticating_witness :
  exists answers w2,
    add_users rs_example (add_user "ama" "s3cret" "user" "" w_admin).2
    = (Returns answers, w2)
    /\ authenticate "ama" "s3cret" w2 = (Returns (true, Obj (PStr "user")), w2).
Proof.
  apply (registered_user_keeps_authenticating w_admin _ "ama" "s3cret" "user" ""
           (Obj (PStr "User created successfully")));
    vm_compute; reflexivity.
Defined.

(** ** A credential file that is not a readable JSON document *)

(** X3. A credential file that exists but cannot be read as JSON is never
    repaired: [initialize_users] leaves it (it only looks whether the file
    exists), so every [authenticate] and [add_user], for the seeded admin
    too, fails with the same read error, [get_users] is empty, and the
    world stays as it is. *)
Theorem unreadable_store_is_never_repaired (w : world) (f : file) :
  users_file w = Some f ->
  (forall j, f <> Doc j) ->
  initialize_users w = (Returns tt, w)
  /\ exists e,
       (forall username password,
           authenticate username password w
           = (Returns (false, ErrText "Authentication error: " e), w))
       /\ (forall username password role email,
             add_user username password role email w
             = (Returns (false, ErrText "Error creating user: " e), w))
       /\ get_users w = (Returns (PDict ∅), w).
Proof.
  intros Hfile Hnot. split.
  - unfold initialize_users. now rewrite Hfile.
  - assert (exists e, json_load_users w = (Raises e, w)) as [e He].
    { unfold json_load_users. rewrite Hfile.
      destruct f as [| |j]; [eauto|eauto|]. now destruct (Hnot j). }
    exists e. unfold authenticate, add_user, get_users, try_except, bind.
    rewrite He. repeat split.
Qed.

Lemma unreadable_store_is_never_repaired_witness :
  initialize_users (World (Some Garbage) None Healthy)
  = (Returns tt, World (Some Garbage) None Healthy)
  /\ exists e,
       (forall username password,
           authenticate username password (World (Some Garbage) None Healthy)
           = (Returns (false, ErrText "Authentication error: " e),
              World (Some Garbage) None Healthy))
       /\ (forall username password role email,
             add_user username password role email (World (Some Garbage) None Healthy)
             = (Returns (false, ErrText "Error creating user: " e),
                World (Some Garbage) None Healthy))
       /\ get_users (World (Some Garbage) None Healthy)
          = (Returns (PDict ∅), World (Some Garbage) None Healthy).
Proof.
  apply (unreadable_store_is_never_repaired _ Garbage); [reflexivity|discriminate].
Defined.

(** X4. [add_user] rewrites the whole file: when the write fails after the
    file was opened (and so truncated), the store is left unreadable, and
    from then on nobody authenticates, the accounts that were stored
    included; [initialize_users] does not seed the admin again. *)
Theorem failed_rewrite_loses_the_store (d : gmap string pyobj) (w : world)
    (username password role email : string) :
  users_file w = Some (Doc (PDict d)) ->
  d !! username = None ->
  disk w = WriteFails ->
  exists w',
    add_user username password role email w
    = (Returns (false, ErrText "Error creating user: " OSError), w')
    /\ users_file w' = Some Garbage
    /\ data_file w' = data_file w
    /\ (forall known secret,
          authenticate known secret w'
          = (Returns (false, ErrText "Authentication error: " JSONDecodeError), w'))
    /\ initialize_users w' = (Returns tt, w').
Proof.
  intros Hfile Hnew Hdisk. eexists. split.
  - run_io. rewrite Hfile.
    rewrite bool_decide_eq_false_2 by (rewrite Hnew; apply is_Some_None).
    rewrite Hdisk. reflexivity.
  - split; [reflexivity|]. split; [reflexivity|]. split; reflexivity.
Qed.

Lemma failed_rewrite_loses_the_store_witness :
  exists w',
    add_user "bob" "pw1" "user" "" (World (users_file w_admin) None WriteFails)
    = (Returns (false, ErrText "Error creating user: " OSError), w')
    /\ authenticate "admin" "admin123" w'
       = (Returns (false, ErrText "Authentication error: " JSONDecodeError), w').
Proof.
  destruct (failed_rewrite_loses_the_store
              (user_obj <$> {["admin" := admin_record]})
              (World (users_file w_admin) None WriteFails)
              "bob" "pw1" "user" "" eq_refl eq_refl eq_refl)
    as (w' & Hadd & _ & _ & Hauth & _).
  exists w'. split; [exact Hadd | apply Hauth].
Defined.

(** ** Which file each operation touches *)

Lemma authenticate_reads_only username password w :
  (authenticate username password w).2 = w.
Proof.
  unfold authenticate, try_except, bind.
  destruct (json_load_users w) as [[users|e] w1] eqn:Hload.
  - assert (w1 = w) as ->.
    { unfold json_load_users in Hload.
      destruct (users_file w) as [[| |j]|]; now inversion Hload. }
    unfold lift, ret.
    destruct (contains username users) as [[|]|e]; cbn; try reflexivity.
    destruct (getitem users username) as [entry|e]; cbn; [|reflexivity].
    destruct (getitem entry "password") as [hashed|e]; cbn; [|reflexivity].
    destruct (verify_password password hashed); cbn; [|reflexivity].
    destruct (getitem entry "role"); reflexivity.
  - unfold json_load_users in Hload.
    destruct (users_file w) as [[| |j]|]; now inversion Hload.
Qed.

Lemma get_users_reads_only w : (get_users w).2 = w.
Proof.
  unfold get_users, try_except, json_load_users.
  destruct (users_file w) as [[| |j]|]; reflexivity.
Qed.

Lemma add_user_frame username password role email w :
  data_file (add_user username password role email w).2 = data_file w
  /\ disk (add_user username password role email w).2 = disk w.
Proof.
  run_io. destruct (users_file w) as [[| |j]|]; try (split; reflexivity).
  destruct j; try (split; reflexivity).
  - destruct (index 0 username s); split; reflexivity.
  - destruct (existsb _ l); split; reflexivity.
  - destruct (bool_decide _); [split; reflexivity|].
    destruct (disk w) eqn:Hd; cbn; rewrite ?Hd; split; reflexivity.
Qed.

Lemma initialize_users_frame w :
  data_file (initialize_users w).2 = data_file w
  /\ disk (initialize_users w).2 = disk w.
Proof.
  unfold initialize_users, json_dump_users.
  destruct (users_file w); cbn; [split; reflexivity|].
  destruct (disk w) eqn:Hd; cbn; rewrite ?Hd; split; reflexivity.
Qed.

Lemma write_data_frame append text w :
  users_file (write_data append text w).2 = users_file w
  /\ disk (write_data append text w).2 = disk w.
Proof.
  unfold write_data. destruct (disk w) eqn:Hd; cbn; rewrite ?Hd; split; reflexivity.
Qed.

Lemma save_data_frame data w :
  users_file (save_data data w).2 = users_file w
  /\ disk (save_data data w).2 = disk w.
Proof. unfold save_data. destruct (exists_file _); apply write_data_frame. Qed.

Lemma initialize_data_frame w :
  users_file (initialize_data w).2 = users_file w
  /\ disk (initialize_data w).2 = disk w.
Proof.
  unfold initialize_data. destruct (negb _); [apply write_data_frame|split; reflexivity].
Qed.

(** X5. Each store has one owner: the credential operations never touch the
    record file and the record operations never touch the credential file;
    [authenticate] and [get_users] write nothing at all. *)
Theorem stores_have_separate_owners (w : world)
    (username password role email : string) (data : list (string * value)) :
  (authenticate username password w).2 = w
  /\ (get_users w).2 = w
  /\ data_file (add_user username password role email w).2 = data_file w
  /\ data_file (initialize_users w).2 = data_file w
  /\ users_file (save_data data w).2 = users_file w
  /\ users_file (initialize_data w).2 = users_file w.
Proof.
  split; [apply authenticate_reads_only|]. split; [apply get_users_reads_only|].
  split; [apply add_user_frame|]. split; [apply initialize_users_frame|].
  split; [apply save_data_frame|apply initialize_data_frame].
Qed.

(** ** Starting the application again *)

Lemma yoka_system_existing (w : world) (f : file) (text : string) :
  users_file w = Some f -> data_file w = Some text ->
  yoka_system w = (Returns tt, w).
Proof.
  intros Hu Hd. unfold yoka_system, bind, initialize_users, initialize_data.
  rewrite Hu. cbn. now rewrite Hd.
Qed.

(** X6. [YokaInformationSystem()] runs at the start of every run of the
    script.  It never resets a store: when both files exist it changes
    nothing, whatever they hold and whatever the disk does; and on a
    healthy disk it creates the missing files, keeps the existing ones
    as they are, and running it again changes nothing. *)
Theorem restart_keeps_the_stores (w : world) :
  (forall f text, users_file w = Some f -> data_file w = Some text ->
                  yoka_system w = (Returns tt, w))
  /\ (disk w = Healthy ->
      exists w1,
        yoka_system w = (Returns tt, w1)
        /\ users_file w1 = Some (default (Doc default_users) (users_file w))
        /\ data_file w1 = Some (default (store_text []) (data_file w))
        /\ yoka_system w1 = (Returns tt, w1)).
Proof.
  split; [apply yoka_system_existing|].
  intros Hdisk. unfold yoka_system, bind, initialize_users, json_dump_users,
    initialize_data, write_data.
  destruct w as [[f|] [text|] dk]; cbn in Hdisk; subst dk; cbn;
    eexists; (split; [reflexivity|]); cbn;
    unfold store_text; cbn [csv_text]; rewrite ?string_app_nil_r;
    repeat split.
Qed.

Lemma restart_keeps_the_stores_witness :
  exists w1,
    yoka_system w_bob = (Returns tt, w1)
    /\ users_file w1 = users_file w_bob
    /\ data_file w1 = Some (store_text [])
    /\ yoka_system w1 = (Returns tt, w1).
Proof.
  destruct (proj2 (restart_keeps_the_stores w_bob) eq_refl)
    as (w1 & Hrun & Hu & Hd & Hagain).
  exists w1. repeat split; assumption.
Defined.

(** ** Records in the order they were saved *)





(** In the table of these three records the guardian's phone, missing in
    the first and the last, makes a column of floats. *)
Example digits_beside_missing_values :
  exists row,
    table_of (save_all [r_ama; r_quoted; r_ama] w_started).2 !! 1%nat = Some row
    /\ row !! 22%nat = Some (Float64 202222222)
    /\ row !! 16%nat = Some (Int64 201111111)
    /\ row !! 8%nat = Some (Tok "kiosk").
Proof.
  exists (default [] (table_of (save_all [r_ama; r_quoted; r_ama] w_started).2 !! 1%nat)).
  split_and!; vm_compute; reflexivity.
Qed.

(** ** The form: what is accepted, and what is saved *)

Lemma complete_no_missing (f : form) : complete f -> missing_fields f = [].
Proof.
  intros (H1 & H2 & H3 & H4 & H5 & H6 & H7 & H8 & H9).
  destruct (missing_fields f) as [|name rest] eqn:Hm; [reflexivity|].
  assert (In name (missing_fields f)) as Hin by (rewrite Hm; now left).
  apply missing_fields_spec in Hin as (v & Hin & Hv).
  unfold required_fields in Hin. cbn [In] in Hin.
  repeat destruct Hin as [Hin|Hin]; try contradiction;
    injection Hin as <- <-; cbn in Hv; try discriminate Hv;
    rewrite negb_false_iff in Hv;
    try (apply String.eqb_eq in Hv; contradiction);
    apply Z.eqb_eq in Hv; contradiction.
Qed.

Lemma no_missing_complete (f : form) : missing_fields f = [] -> complete f.
Proof.
  intros Hm.
  assert (forall name v, In (name, v) (required_fields f) -> truthy v = true) as Hall.
  { intros name v Hin. destruct (truthy v) eqn:Hv; [reflexivity|].
    exfalso. apply (missing_fields_intro f name v Hin Hv Hm). }
  repeat split; intros Hempty.
  - specialize (Hall "Official Name" (VStr (official_name f)) ltac:(cbn; tauto)).
    cbn in Hall. now rewrite Hempty in Hall.
  - specialize (Hall "Age" (VInt (age f)) ltac:(cbn; tauto)).
    cbn in Hall. now rewrite Hempty in Hall.
  - specialize (Hall "Phone Numbers" (VStr (phone_numbers f)) ltac:(cbn; tauto)).
    cbn in Hall. now rewrite Hempty in Hall.
  - specialize (Hall "Email" (VStr (email f)) ltac:(cbn; tauto)).
    cbn in Hall. now rewrite Hempty in Hall.
  - specialize (Hall "School Name" (VStr (school_name f)) ltac:(cbn; tauto)).
    cbn in Hall. now rewrite Hempty in Hall.
  - specialize (Hall "Program" (VStr (program f)) ltac:(cbn; tauto)).
    cbn in Hall. now rewrite Hempty in Hall.
  - specialize (Hall "Current Class" (VStr (current_class f)) ltac:(cbn; tauto)).
    cbn in Hall. now rewrite Hempty in Hall.
  - specialize (Hall "Church Branch" (VStr (church_branch f)) ltac:(cbn; tauto)).
    cbn in Hall. now rewrite Hempty in Hall.
  - specialize (Hall "Branch Pastor" (VStr (branch_pastor f)) ltac:(cbn; tauto)).
    cbn in Hall. now rewrite Hempty in Hall.
Qed.

(** X8. The check of the required fields accepts a form exactly when the
    eight required texts are not empty and the age is not zero: text of
    blanks counts as filled, and the date of birth, a date object and so
    always true, is never reported missing. *)
Theorem validation_accepts_exactly_complete_forms (f : form) :
  (missing_fields f = [] <-> complete f)
  /\ ~ In "Date of Birth" (missing_fields f)
  /\ (forall name, In name (missing_fields f) ->
        In name ["Official Name"; "Age"; "Phone Numbers"; "Email"; "School Name";
                 "Program"; "Current Class"; "Church Branch"; "Branch Pastor"]).
Proof.
  split; [split; [apply no_missing_complete|apply complete_no_missing]|].
  assert (forall name, In name (missing_fields f) ->
            name <> "Date of Birth"
            /\ In name ["Official Name"; "Date of Birth"; "Age"; "Phone Numbers";
                        "Email"; "School Name"; "Program"; "Current Class";
                        "Church Branch"; "Branch Pastor"]) as Hnames.
  { intros name Hin. apply missing_fields_spec in Hin as (v & Hin & Hv).
    unfold required_fields in Hin. cbn [In] in Hin.
    repeat destruct Hin as [Hin|Hin]; try contradiction;
      injection Hin as <- <-; try discriminate Hv;
      (split; [discriminate | cbn; tauto]). }
  split.
  - intros Hin. now destruct (Hnames _ Hin).
  - intros name Hin. destruct (Hnames _ Hin) as [Hne Hin'].
    cbn [In] in Hin' |- *. intuition congruence.
Qed.

Lemma submit_complete (f : form) now username w :
  missing_fields f = [] ->
  submit f now username w
  = match save_data (form_data f now username) w with
    | (Returns _, w') => (Returns [StMarkdown success_html], w')
    | (Raises e, w') => (Raises e, w')
    end.
Proof.
  intros Hm. unfold submit. rewrite Hm. unfold bind, ret.
  destruct (save_data _ w) as [[[]|e] w']; reflexivity.
Qed.

Lemma form_data_keys (f : form) now username :
  map fst (form_data f now username) = columns.
Proof. reflexivity. Qed.




(** The row of the example form: the name as typed, the age as a number,
    the empty business as NaN, the user of the session last. *)
Example complete_form_row :
  exists row,
    table_of (submit f_ama now_ex "admin" w_started).2 !! 0%nat = Some row
    /\ row !! 0%nat = Some (Tok "2024-03-09 08:05:00")
    /\ row !! 1%nat = Some (Tok "Ama Mensah")
    /\ row !! 3%nat = Some (Int64 21)
    /\ row !! 8%nat = Some NaN
    /\ row !! 36%nat = Some (Tok "admin").
Proof.
  exists (default [] (table_of (submit f_ama now_ex "admin" w_started).2 !! 0%nat)).
  split_and!; vm_compute; reflexivity.
Qed.

(** X10. The success message is shown only after the row was written: when
    [submit] shows it, the form was complete, the disk took the write, and
    the record file is the former file (or a new header) followed by the
    row of the form.  [save_data] has no handler: with a complete form and
    a failing disk [submit] raises and shows no message, and when the file
    could not be opened nothing changed. *)
Theorem success_only_after_write (f : form) (now : datetime) (username : string)
    (w : world) :
  (forall out w',
      submit f now username w = (Returns out, w') ->
      In (StMarkdown success_html) out ->
      complete f /\ disk w = Healthy
      /\ users_file w' = users_file w
      /\ data_file w'
         = Some (default (csv_row columns) (data_file w)
                 ++ csv_row (row_texts (form_data f now username))))
  /\ (complete f -> disk w <> Healthy ->
      exists e w',
        submit f now username w = (Raises e, w')
        /\ (disk w = OpenFails -> w' = w)).
Proof.
  split.
  - intros out w' Hrun Hshown.
    destruct (missing_fields f) as [|name rest] eqn:Hm.
    + rewrite (submit_complete f now username w Hm) in Hrun.
      split; [now apply no_missing_complete|].
      unfold save_data, write_data, to_csv in Hrun.
      destruct (data_file w) as [old|] eqn:Hold; cbn in Hrun;
        destruct (disk w) eqn:Hd; cbn in Hrun; try discriminate;
        injection Hrun as <- <-; repeat split.
    + rewrite submit_incomplete in Hrun by (rewrite Hm; discriminate).
      injection Hrun as <- <-. destruct Hshown as [Hshown|[]]. discriminate.
  - intros Hcomplete Hdisk.
    rewrite (submit_complete f now username w (complete_no_missing f Hcomplete)).
    unfold save_data, write_data.
    destruct (data_file w) as [old|] eqn:Hold; cbn;
      destruct (disk w) eqn:Hd; try congruence; eexists _, _;
      (split; [reflexivity|]); intros; try discriminate; reflexivity.
Qed.

Lemma success_only_after_write_witness :
  exists e,
    submit f_ama now_ex "admin" (World (users_file w_started) (data_file w_started) OpenFails)
    = (Raises e, World (users_file w_started) (data_file w_started) OpenFails).
Proof.
  destruct (proj2 (success_only_after_write f_ama now_ex "admin"
                     (World (users_file w_started) (data_file w_started) OpenFails)))
    as (e & w' & Hrun & Hsame).
  - repeat split; discriminate.
  - discriminate.
  - exists e. rewrite Hrun. now rewrite (Hsame eq_refl).
Defined.

(** ** Loading a file without records *)

Lemma run_blank (cs : list ascii) : forall p,
  Forall (fun c => c = LF \/ is_blank c = true) cs ->
  (state p = START_RECORD \/ state p = WHITESPACE_LINE) ->
  line p = [] -> lines p = [] ->
  (state (run p cs) = START_RECORD \/ state (run p cs) = WHITESPACE_LINE)
  /\ line (run p cs) = [] /\ lines (run p cs) = [].
Proof.
  induction cs as [|c cs IH]; intros p Hcs Hst Hline Hlines; [auto|].
  inversion Hcs as [|? ? Hc Hcs']; subst. rewrite run_cons.
  apply IH; [exact Hcs'| | |];
    destruct p as [st wd ln lns]; cbn in Hst, Hline, Hlines; subst ln lns;
    (destruct Hc as [->|Hc];
     [destruct Hst as [->| ->]; cbn; auto
     |unfold is_blank in Hc; apply orb_true_iff in Hc as [Hc|Hc];
      apply Ascii.eqb_eq in Hc; subst c;
      destruct Hst as [->| ->]; cbn; auto]).
Qed.

Lemma blank_no_nul (text : string) : blank_text text -> has_nul text = false.
Proof.
  unfold blank_text, has_nul. induction 1 as [|c cs Hc _ IH]; [reflexivity|].
  cbn [existsb]. rewrite IH.
  destruct Hc as [->|Hc]; [reflexivity|].
  unfold is_blank in Hc. apply orb_true_iff in Hc as [Hc|Hc];
    apply Ascii.eqb_eq in Hc; subst c; reflexivity.
Qed.

Lemma blank_no_bom (text : string) : blank_text text -> skip_bom text = text.
Proof.
  unfold blank_text. destruct text as [|c1 [|c2 [|c3 rest]]]; try reflexivity.
  cbn [list_ascii_of_string]. intros H. inversion H as [|? ? Hc _]; subst.
  destruct Hc as [->|Hc]; [reflexivity|].
  unfold is_blank in Hc. apply orb_true_iff in Hc as [Hc|Hc];
    apply Ascii.eqb_eq in Hc; subst c1; reflexivity.
Qed.

(** X11. A record file that does not exist loads as the empty table, in
    silence; a record file that exists but holds blank lines only (an
    empty file too) loads as the empty table as well, and the error of
    [read_csv] is shown. *)
Theorem file_without_records_loads_empty (w : world) :
  (data_file w = None -> load_data w = Some (empty_frame, []))
  /\ (forall text,
        data_file w = Some text -> blank_text text ->
        load_data w
        = Some (empty_frame,
                [StError (ErrText "Error loading data: " EmptyDataError)])).
Proof.
  split; [intros Hnone; unfold load_data; now rewrite Hnone|].
  intros text Hfile Hblank. unfold load_data, read_csv.
  rewrite Hfile, (blank_no_nul text Hblank), (blank_no_bom text Hblank).
  unfold tokenize.
  destruct (run_blank (list_ascii_of_string text) (Parser START_RECORD [] [] [])
              Hblank (or_introl eq_refl) eq_refl eq_refl) as (Hst & _ & Hlines).
  unfold run in Hst, Hlines. unfold handle_eof.
  destruct Hst as [-> | ->]; now rewrite Hlines.
Qed.

Lemma file_without_records_loads_empty_witness :
  load_data (World None (Some (String LF (String SPACE (String LF "")))) Healthy)
  = Some (empty_frame, [StError (ErrText "Error loading data: " EmptyDataError)]).
Proof.
  apply (proj2 (file_without_records_loads_empty
                  (World None (Some (String LF (String SPACE (String LF "")))) Healthy))
           _ eq_refl).
  constructor; [left; reflexivity|].
  constructor; [right; reflexivity|].
  constructor; [left; reflexivity|constructor].
Defined.

(** * The pages *)

(** ** Auxiliary facts *)

Lemma app_eta (a : app_state) : App (fs a) (ss a) (page a) = a.
Proof. now destruct a. Qed.

Lemma nonempty_true (s : string) : s <> "" -> nonempty s = true.
Proof. intros H. unfold nonempty. destruct (String.eqb_spec s ""); [contradiction|reflexivity]. Qed.

Lemma nonempty_false (s : string) : nonempty s = false -> s = "".
Proof. unfold nonempty. destruct (String.eqb_spec s ""); [auto|discriminate]. Qed.

Lemma call_authenticate username password a :
  exists r, authenticate username password (fs a) = (Returns r, fs a)
            /\ call (authenticate username password) a = (Done r, a).
Proof.
  destruct (authenticate_never_raises username password (fs a)) as (r & w' & H).
  pose proof (authenticate_reads_only username password (fs a)) as Hw.
  rewrite H in Hw. simpl in Hw. subst w'.
  exists r. split; [exact H|]. unfold call. rewrite H. now rewrite app_eta.
Qed.

Lemma login_page_fs (i : login_inputs) (a : app_state) :
  logged_in (ss a) <> None -> fs (login_page i a).2 = fs a.
Proof.
  intros Hin. unfold login_page, ui_bind.
  destruct (login_btn i).
  - destruct (nonempty (li_username i) && nonempty (li_password i)).
    + destruct (call_authenticate (li_username i) (li_password i) a) as (r & _ & ->).
      destruct r as [[|] [v|p e]]; cbn; try reflexivity.
      * destruct (clear_btn i); cbn; [reflexivity|].
        destruct (logged_in (ss a)); [reflexivity|congruence].
      * destruct (clear_btn i); cbn; [reflexivity|].
        destruct (logged_in (ss a)); [reflexivity|congruence].
    + cbn. destruct (clear_btn i); cbn; [reflexivity|].
      destruct (logged_in (ss a)); [reflexivity|congruence].
  - cbn. destruct (clear_btn i); cbn; [reflexivity|].
    destruct (logged_in (ss a)); [reflexivity|congruence].
Qed.

(** X12. A login with both fields filled and the credentials of a stored
    user opens the session: [logged_in] is set, the username is the one
    typed, the role is the stored role of that user, the stores are not
    written, the success message is shown and the script is run again. *)
Theorem login_sets_the_session (m : gmap string user) (a : app_state)
    (i : login_inputs) (u : user) :
  users_file (fs a) = Some (Doc (users_obj m)) ->
  login_btn i = true ->
  li_username i <> "" -> li_password i <> "" ->
  m !! li_username i = Some u ->
  hash_password (li_password i) = user_password u ->
  login_page i a
  = (Rerun,
     App (fs a)
         (Session (Some true) (Some (li_username i)) (Some (PStr (user_role u)))
                  (show_user_management (ss a)))
         (page a ++ [st_success (Obj (PStr "Login successful!"))])).
Proof.
  intros Hfile Hbtn Hu Hp Hm Hhash. unfold login_page, ui_bind.
  rewrite Hbtn, (nonempty_true _ Hu), (nonempty_true _ Hp). cbn [andb].
  destruct (call_authenticate (li_username i) (li_password i) a) as (r & Hr & ->).
  rewrite (authenticate_store m _ _ _ Hfile), Hm, Hhash, String.eqb_refl in Hr.
  inversion Hr; subst r. reflexivity.
Qed.

Lemma login_sets_the_session_witness :
  login_page login_bob (App w_bob visitor [])
  = (Rerun,
     App w_bob (Session (Some true) (Some "bob") (Some (PStr "user")) None)
         [st_success (Obj (PStr "Login successful!"))]).
Proof.
  apply (login_sets_the_session m_bob (App w_bob visitor []) login_bob
           (User (hash_password "pw1") "user" "bob@x.com")).
  - reflexivity.
  - reflexivity.
  - discriminate.
  - discriminate.
  - vm_compute. reflexivity.
  - reflexivity.
Defined.

(** X13. A refused login changes nothing: with an empty username or an empty
    password (also when the store has a user whose password is empty), or
    with a username that is not stored or a password that does not match,
    the login page shows one error, and the session and both files are as
    they were.  The session has its key [logged_in], as it has whenever
    the script calls the page. *)
Theorem login_page_refuses (m : gmap string user) (a : app_state) (i : login_inputs) :
  users_file (fs a) = Some (Doc (users_obj m)) ->
  logged_in (ss a) <> None ->
  login_btn i = true ->
  li_username i = "" \/ li_password i = ""
  \/ (forall u, m !! li_username i = Some u ->
                hash_password (li_password i) <> user_password u) ->
  login_page i a
  = (if clear_btn i then Rerun else Done tt,
     App (fs a) (ss a) (page a ++ [st_error (Obj (PStr (refusal i)))])).
Proof.
  intros Hfile Hin Hbtn Hcase. unfold login_page, ui_bind, refusal. rewrite Hbtn.
  destruct (nonempty (li_username i) && nonempty (li_password i)) eqn:Hne.
  - apply andb_prop in Hne as [Hu Hp].
    destruct Hcase as [E|[E|Hbad]];
      [rewrite E in Hu; discriminate|rewrite E in Hp; discriminate|].
    destruct (call_authenticate (li_username i) (li_password i) a) as (r & Hr & ->).
    rewrite (authenticate_store m _ _ _ Hfile) in Hr.
    assert (r = invalid_credentials) as ->.
    { destruct (m !! li_username i) as [u|] eqn:Hm; [|now inversion Hr].
      destruct (String.eqb_spec (hash_password (li_password i)) (user_password u));
        [now destruct (Hbad u eq_refl)|now inversion Hr]. }
    cbn. destruct (clear_btn i); cbn; [reflexivity|].
    destruct (logged_in (ss a)); [reflexivity|congruence].
  - cbn. destruct (clear_btn i); cbn; [reflexivity|].
    destruct (logged_in (ss a)); [reflexivity|congruence].
Qed.

Lemma login_page_refuses_witness :
  login_page login_blank (App w_bob visitor [])
  = (Done tt,
     App w_bob visitor
         [st_error (Obj (PStr "Please enter both username and password"))]).
Proof.
  apply (login_page_refuses m_bob (App w_bob visitor []) login_blank).
  - reflexivity.
  - discriminate.
  - reflexivity.
  - right. left. reflexivity.
Defined.

(** Called with a session that has no key [logged_in], the login page does
    register an administrator; with the key set it does not. *)
Example registration_needs_an_unset_key :
  authenticate "eve" "pw"
    (fs (login_page register_eve (App w_bob (Session None None None None) [])).2)
  = (Returns (true, Obj (PStr "admin")),
     fs (login_page register_eve (App w_bob (Session None None None None) [])).2)
  /\ login_page register_eve (App w_bob visitor []) = (Done tt, App w_bob visitor []).
Proof. split; vm_compute; reflexivity. Qed.

Lemma show_all_run (es : list element) (a : app_state) :
  show_all es a = (Done tt, App (fs a) (ss a) (page a ++ es)).
Proof.
  revert a. induction es as [|e es IH]; intros a.
  - cbn. unfold ui_ret. now rewrite app_nil_r, app_eta.
  - cbn. unfold ui_bind, show. rewrite IH. cbn. now rewrite <- app_assoc.
Qed.

Lemma submit_frame (f : form) now username w :
  users_file (submit f now username w).2 = users_file w.
Proof.
  unfold submit. destruct (missing_fields f); [|reflexivity].
  unfold bind, ret.
  pose proof (save_data_frame (form_data f now username) w) as [H _].
  destruct (save_data _ w) as [[[]|e] w']; exact H.
Qed.

(** The part of [main_application] after the admin panel. *)
Lemma form_and_data_users (i : main_inputs) (username : string) (a : app_state) :
  users_file
    (fs ((let+ _ :=
            if submitted i then
              let+ out := call (submit (the_form i) (clock i) username) in
              show_all (map element_of out)
            else ui_ret tt in
          if show_data i then
            fun a =>
              match load_data (fs a) with
              | None => (Unrepresented, a)
              | Some (data, shown) =>
                  (let+ _ := show_all (map element_of shown) in
                   if negb (df_empty data) then
                     let+ _ := show (st_dataframe data) in
                     show (st_download_button data)
                   else show (st_info "No data submitted yet.")) a
              end
          else ui_ret tt) a).2)
  = users_file (fs a).
Proof.
  assert (Hdata : forall b : app_state,
    fs ((if show_data i then
            fun a =>
              match load_data (fs a) with
              | None => (Unrepresented, a)
              | Some (data, shown) =>
                  (let+ _ := show_all (map element_of shown) in
                   if negb (df_empty data) then
                     let+ _ := show (st_dataframe data) in
                     show (st_download_button data)
                   else show (st_info "No data submitted yet.")) a
              end
          else ui_ret tt) b).2 = fs b).
  { intros b. destruct (show_data i); [|reflexivity].
    destruct (load_data (fs b)) as [[data shown]|]; [|reflexivity].
    unfold ui_bind. rewrite show_all_run.
    destruct (negb (df_empty data)); reflexivity. }
  unfold ui_bind at 1. destruct (submitted i).
  - unfold ui_bind at 1, call.
    pose proof (submit_frame (the_form i) (clock i) username (fs a)) as Hs.
    destruct (submit (the_form i) (clock i) username (fs a)) as [[out|e] w'];
      cbn in Hs; [|exact Hs].
    rewrite show_all_run. cbn [fst snd fs ss page].
    rewrite Hdata. exact Hs.
  - unfold ui_ret at 1. now rewrite Hdata.
Qed.

Lemma main_application_users (i : main_inputs) (a : app_state) :
  (forall r, ss_role (ss a) = Some r -> str_eq "admin" r = false) ->
  users_file (fs (main_application i a).2) = users_file (fs a).
Proof.
  intros Hrole. unfold main_application.
  unfold ui_bind at 1, get_session. unfold ui_bind at 1.
  destruct (ss_username (ss a)) as [username|]; [|reflexivity].
  unfold attribute at 1, ui_ret at 1. unfold ui_bind at 1, show at 1.
  unfold ui_bind at 1.
  destruct (logout_btn i); [reflexivity|].
  unfold ui_ret at 1. unfold ui_bind at 1.
  destruct (ss_role (ss a)) as [r|] eqn:Hr; [|reflexivity].
  unfold attribute at 1, ui_ret at 1. rewrite (Hrole r eq_refl).
  unfold ui_bind at 1, ui_ret at 1.
  apply (form_and_data_users i username
           (App (fs a) (ss a) (page a ++ [st_write ("Welcome, **" ++ username ++ "**")]))).
Qed.

Lemma script_run (i : script_inputs) (a : app_state) :
  script i a
  = match yoka_system (fs a) with
    | (Raises e, w1) => (Fault (Exception e), App w1 (ss a) (page a))
    | (Returns _, w1) =>
        match logged_in (ss a) with
        | Some true => main_application (main_inputs_of i) (App w1 (ss a) (page a))
        | Some false => login_page (login_inputs_of i) (App w1 (ss a) (page a))
        | None =>
            login_page (login_inputs_of i)
              (App w1 (Session (Some false) (ss_username (ss a)) (ss_role (ss a))
                               (show_user_management (ss a)))
                   (page a))
        end
    end.
Proof.
  unfold script. unfold ui_bind at 1, call.
  destruct (yoka_system (fs a)) as [[[]|e] w1]; [|reflexivity].
  unfold ui_bind, get_session, set_session, attribute, ui_ret.
  cbn -[main_application login_page].
  destruct (logged_in (ss a)) as [[|]|] eqn:Hin;
    cbn -[main_application login_page]; rewrite ?Hin; reflexivity.
Qed.

(** X14. Only an administrator's session changes the credential store: a run
    of the script whose session is not logged in with the role admin leaves
    the credential file as [YokaInformationSystem()] left it, whatever is
    typed and pressed; and a run that is not logged in leaves both files
    so.  The registration section of the login page is never reached from
    the script, which sets [logged_in] before it calls the page. *)
Theorem only_an_admin_session_changes_the_users (a : app_state) (i : script_inputs) :
  (logged_in (ss a) = Some true ->
   forall r, ss_role (ss a) = Some r -> str_eq "admin" r = false) ->
  users_file (fs (script i a).2) = users_file (yoka_system (fs a)).2
  /\ (logged_in (ss a) <> Some true -> fs (script i a).2 = (yoka_system (fs a)).2).
Proof.
  intros Hrole. rewrite script_run.
  destruct (yoka_system (fs a)) as [[[]|e] w1]; [|split; reflexivity].
  cbn [snd]. destruct (logged_in (ss a)) as [[|]|] eqn:Hin.
  - split; [|congruence].
    apply (main_application_users (main_inputs_of i) (App w1 (ss a) (page a))).
    exact (Hrole eq_refl).
  - rewrite login_page_fs by (cbn; congruence). split; reflexivity.
  - rewrite login_page_fs by (cbn; congruence). split; reflexivity.
Qed.

Lemma only_an_admin_session_changes_the_users_witness :
  users_file (fs (script (ScriptInputs login_bob submit_ama)
                         (App w_bob member_bob [])).2)
  = users_file (yoka_system w_bob).2
  /\ (logged_in member_bob <> Some true ->
      fs (script (ScriptInputs login_bob submit_ama) (App w_bob member_bob [])).2
      = (yoka_system w_bob).2).
Proof.
  apply (only_an_admin_session_changes_the_users
           (App w_bob member_bob []) (ScriptInputs login_bob submit_ama)).
  intros _ r Hr. inversion Hr. reflexivity.
Defined.








(** X16. Logout ends the run before anything else is handled: the keys
    [logged_in], [username] and [role] are removed, the files are as they
    were, nothing of the panel or of the form is processed, and the next
    run of the script shows the login page with [logged_in] false. *)
Theorem logout_ends_the_session (a : app_state) (i : main_inputs) (u : string) :
  ss_username (ss a) = Some u ->
  logout_btn i = true ->
  let closed := Session None None None (show_user_management (ss a)) in
  main_application i a = (Rerun, App (fs a) closed (page a ++ [welcome u]))
  /\ forall (j : script_inputs) (pg : list element) (w1 : world),
       yoka_system (fs a) = (Returns tt, w1) ->
       script j (App (fs a) closed pg)
       = login_page (login_inputs_of j)
           (App w1 (Session (Some false) None None (show_user_management (ss a))) pg).
Proof.
  intros Hu Hout closed. split.
  - unfold main_application.
    unfold ui_bind at 1, get_session. unfold ui_bind at 1. rewrite Hu.
    unfold attribute at 1, ui_ret at 1. unfold ui_bind at 1, show at 1.
    unfold ui_bind at 1. rewrite Hout. reflexivity.
  - intros j pg w1 Hstart. rewrite script_run. cbn [fs ss page]. rewrite Hstart.
    reflexivity.
Qed.

Lemma logout_ends_the_session_witness :
  main_application press_logout (App w_bob_started member_bob [])
  = (Rerun, App w_bob_started (Session None None None None) [welcome "bob"]).
Proof.
  apply (logout_ends_the_session (App w_bob_started member_bob []) press_logout "bob").
  - reflexivity.
  - reflexivity.
Defined.




(** The row the page shows for the example: the member's name in the last
    column, the phone number of digits as a number. *)
Example member_submission_row :
  exists row,
    table_of (fs (main_application submit_ama (App w_bob_started member_bob [])).2)
      !! 0%nat = Some row
    /\ row !! 36%nat = Some (Tok "bob")
    /\ row !! 10%nat = Some (Int64 200000000).
Proof.
  exists (default []
            (table_of (fs (main_application submit_ama
                             (App w_bob_started member_bob [])).2) !! 0%nat)).
  split_and!; vm_compute; reflexivity.
Qed.
